(** * The Last Bounce API: verification engine and admission control

    A shallow embedding of [lib/verifier.ts] (the three-way product
    verification), of [lib/rate-limit.ts] (the in-memory rate limiter) and
    of [api/verify.ts] (the endpoint that puts them together), with the
    properties their specification states about them and further properties
    read off the code. *)

From Stdlib Require Import ZArith Ascii String List Strings.Byte Lia.
From stdpp Require Import base decidable option list strings pretty gmap
  fin_maps.

Local Open Scope string_scope.
Local Open Scope Z_scope.

(** ** JavaScript values, completions and the module state *)

(** TypeScript types are erased at run time and the [/api/verify] handler
    forwards the JSON array [body.publicInputs] unchecked, so the entries of
    [publicInputs] are run-time values, of which only strings have a
    [startsWith] method. *)
Inductive jsval : Type :=
  | JUndefined
  | JNull
  | JBool (b : bool)
  | JNum (n : Z)
  | JStr (s : string).

(** The only exception the verifier's code can raise: a method call on a
    value that has no such method. The message is the engine's; one fixed
    text stands for it. *)
Inductive exn : Type :=
  | TypeError (msg : string).

(** One line written by [console.error(label, error)]. *)
Inductive log_entry : Type :=
  | ConsoleError (label : string) (error : exn).

(** How the evaluation of a function body ends: [return a] or [throw e].
    For an [async] function these are the fulfilled and the rejected
    promise. *)
Inductive completion (A : Type) : Type :=
  | Return (a : A)
  | Throw (e : exn).
Arguments Return {A} a.
Arguments Throw {A} e.

(** Module-level state of [verifier.ts] that a call can observe or change:
    the [VALID_ROOTS] set object and the console. *)
Record world : Type := World {
  VALID_ROOTS : gset string;
  console : list log_entry
}.

Definition JS (A : Type) : Type := world -> completion A * world.

Definition ret {A : Type} (a : A) : JS A := fun w => (Return a, w).

Definition throw {A : Type} (e : exn) : JS A := fun w => (Throw e, w).

Definition bind {A B : Type} (m : JS A) (k : A -> JS B) : JS B :=
  fun w =>
    match m w with
    | (Return a, w') => k a w'
    | (Throw e, w') => (Throw e, w')
    end.

(** [try { body } catch (error) { handler(error) }] *)
Definition try_catch {A : Type} (body : JS A) (handler : exn -> JS A) : JS A :=
  fun w =>
    match body w with
    | (Return a, w') => (Return a, w')
    | (Throw e, w') => handler e w'
    end.

Definition console_error (label : string) (error : exn) : JS unit :=
  fun w =>
    (Return tt,
     {| VALID_ROOTS := VALID_ROOTS w;
        console := (console w ++ [ConsoleError label error])%list |}).

Declare Scope js_scope.
Delimit Scope js_scope with js.
Notation "'let*' x ':=' m 'in' k" := (bind m (fun x => k))
  (at level 10, x name, m at level 100, k at level 200) : js_scope.
Notation "'do' m 'in' k" := (bind m (fun _ => k))
  (at level 10, m at level 100, k at level 200) : js_scope.

(** [a || b] with JavaScript's evaluation order: [b] is evaluated only when
    [a] is false. *)
Definition lazy_or (a b : JS bool) : JS bool :=
  (let* x := a in if x then ret true else b)%js.

(** [!a] *)
Definition js_not (a : JS bool) : JS bool :=
  (let* x := a in ret (negb x))%js.

(** ** Data model of [verifier.ts] *)

Definition Buffer : Type := list byte.

Record VerificationInput : Type := {
  proof : Buffer;
  publicInputs : list jsval;
  tagSignature : Buffer;
  challenge : Buffer;
  tagUid : string
}.

Record VerificationResult : Type := {
  authentic : bool;
  proofValid : bool;
  tagAuthValid : bool;
  rootValid : bool
}.

(** The literal the module initialises [VALID_ROOTS] with. *)
Definition VALID_ROOTS_literal : gset string :=
  {[ "0x1234567890abcdef1234567890abcdef1234567890abcdef1234567890abcdef" ]}.

Definition initial_world : world :=
  {| VALID_ROOTS := VALID_ROOTS_literal; console := [] |}.

(** [v.startsWith(p)]: the string method on a string, a [TypeError] on
    anything else ([undefined] and [null] have no properties, numbers and
    booleans have no [startsWith]). *)
Definition startsWith (v : jsval) (p : string) : JS bool :=
  match v with
  | JStr s => ret (String.prefix p s)
  | _ => throw (TypeError "startsWith is not a function")
  end.

(** [const [a, b] = arr]: a missing position is [undefined]. *)
Definition array_get (arr : list jsval) (i : nat) : jsval :=
  nth i arr JUndefined.

(** ** [verifyZKProof] *)

(** The statements inside the [try] block. [publicInputs] is an array, hence
    truthy, so [!publicInputs || publicInputs.length < 2] is the length
    test. The proof-system call is a comment in the source and has no
    counterpart here. *)
Definition verifyZKProof_body (proof : Buffer) (publicInputs : list jsval)
  : JS bool :=
  (if (length proof =? 0)%nat then ret false
   else if (length publicInputs <? 2)%nat then ret false
   else
     let root := array_get publicInputs 0 in
     let nullifierHash := array_get publicInputs 1 in
     let* c := lazy_or (js_not (startsWith root "0x"))
                       (js_not (startsWith nullifierHash "0x")) in
     if c then ret false
     else ret true)%js.

Definition verifyZKProof (proof : Buffer) (publicInputs : list jsval)
  : JS bool :=
  try_catch (verifyZKProof_body proof publicInputs)
    (fun error =>
       (do console_error "ZK proof verification error:" error in
        ret false)%js).

(** ** [verifyTagAuth] *)

(** The statements inside the [try] block; [!tagUid] holds of the empty
    string only. The MAC computation and its comparison are comments in the
    source. *)
Definition verifyTagAuth_body (tagUid : string) (challenge signature : Buffer)
  : JS bool :=
  (if (String.eqb tagUid "" || (length challenge =? 0)%nat
       || (length signature =? 0)%nat)%bool
   then ret false
   else if negb (length signature =? 16)%nat then ret false
   else ret true)%js.

Definition verifyTagAuth (tagUid : string) (challenge signature : Buffer)
  : JS bool :=
  try_catch (verifyTagAuth_body tagUid challenge signature)
    (fun error =>
       (do console_error "Tag auth verification error:" error in
        ret false)%js).

(** ** [verifyRoot] *)

(** [VALID_ROOTS.has(root)]: the set holds strings only, so any other value
    is absent from it. *)
Definition verifyRoot (root : jsval) : JS bool :=
  fun w =>
    (Return match root with
            | JStr s => bool_decide (s ∈ VALID_ROOTS w)
            | _ => false
            end,
     w).

(** ** [verifyProof] *)

Definition verifyProof (input : VerificationInput) : JS VerificationResult :=
  (let root := array_get (publicInputs input) 0 in
   let* proofValid := verifyZKProof (proof input) (publicInputs input) in
   let* tagAuthValid := verifyTagAuth (tagUid input) (challenge input)
                          (tagSignature input) in
   let* rootValid := verifyRoot root in
   let authentic := (proofValid && tagAuthValid && rootValid)%bool in
   ret {| authentic := authentic;
          proofValid := proofValid;
          tagAuthValid := tagAuthValid;
          rootValid := rootValid |})%js.

(** ** The rate limiter ([lib/rate-limit.ts]) *)

(** Timestamps ([Date.now()], epoch milliseconds) and counters are
    JavaScript numbers holding integers; they are modelled as [Z]. *)

(** The value type of the [requests] map. *)
Module Entry.
Record t : Type := mk { count : Z; resetAt : Z }.
End Entry.

Record RateLimitConfig : Type := {
  maxRequests : Z;
  windowMs : Z
}.

Record RateLimitResult : Type := {
  success : bool;
  remaining : Z;
  resetAt : Z
}.

Definition DEFAULT_CONFIG : RateLimitConfig :=
  {| maxRequests := 100; windowMs := 60000 |}.

(** The loop that cleans up expired entries: every entry with
    [value.resetAt < now] is deleted from the map, the others stay. *)
Definition cleanup (now : Z) (requests : gmap string Entry.t)
  : gmap string Entry.t :=
  filter (fun kv : string * Entry.t => ¬ (Entry.resetAt kv.2 < now)%Z)
    requests.

(** [rateLimit(req, config)], where [clientId] is the value of
    [getClientId(req)], [now] the value read from [Date.now()], and the
    module-level map [requests] is passed in and returned. The record stored
    in the map is shared with the local variable [record], so [record.count++]
    is an update of the map. *)
Definition rateLimit (clientId : string) (now : Z) (config : RateLimitConfig)
    (requests : gmap string Entry.t)
  : RateLimitResult * gmap string Entry.t :=
  let requests := cleanup now requests in
  let new_window :=
    let record := {| Entry.count := 1;
                     Entry.resetAt := now + windowMs config |} in
    ({| success := true;
        remaining := maxRequests config - 1;
        resetAt := Entry.resetAt record |},
     <[clientId := record]> requests) in
  match requests !! clientId with
  | None => new_window
  | Some record =>
      if bool_decide (Entry.resetAt record < now)%Z then new_window
      else if bool_decide (Entry.count record >= maxRequests config)%Z then
        ({| success := false;
            remaining := 0;
            resetAt := Entry.resetAt record |},
         requests)
      else
        let record := {| Entry.count := Entry.count record + 1;
                         Entry.resetAt := Entry.resetAt record |} in
        ({| success := true;
            remaining := maxRequests config - Entry.count record;
            resetAt := Entry.resetAt record |},
         <[clientId := record]> requests)
  end.

(** A run of calls by one client: the request times in order, the results in
    the same order, and the map after the last call. *)
Fixpoint rateLimit_run (clientId : string) (config : RateLimitConfig)
    (times : list Z) (requests : gmap string Entry.t)
  : list RateLimitResult * gmap string Entry.t :=
  match times with
  | [] => ([], requests)
  | now :: times =>
      let '(result, requests) := rateLimit clientId now config requests in
      let '(results, requests) := rateLimit_run clientId config times requests in
      (result :: results, requests)
  end.

(** ** Client identity and response headers ([lib/rate-limit.ts]) *)

(** A header value as Node delivers it: one string, or an array of strings
    for a header that was sent several times. Header bytes are read as
    Latin-1, so a header string is a sequence of characters below U+0100,
    one [ascii] each. *)
Inductive header_value : Type :=
  | HeaderString (s : string)
  | HeaderArray (values : list string).

(** The characters below U+0100 that [String.prototype.trim] strips: tab,
    line feed, vertical tab, form feed, carriage return, space and the
    no-break space. *)
Definition is_whitespace (c : ascii) : bool :=
  let n := nat_of_ascii c in
  ((9 <=? n) && (n <=? 13) || (n =? 32) || (n =? 160))%nat%bool.

Fixpoint trimStart (s : string) : string :=
  match s with
  | EmptyString => EmptyString
  | String c rest => if is_whitespace c then trimStart rest else s
  end.

Fixpoint trimEnd (s : string) : string :=
  match s with
  | EmptyString => EmptyString
  | String c rest =>
      match trimEnd rest with
      | EmptyString => if is_whitespace c then EmptyString
                       else String c EmptyString
      | kept => String c kept
      end
  end.

(** [s.trim()] *)
Definition trim (s : string) : string := trimEnd (trimStart s).

(** [s.split(',')[0]]: the characters before the first comma, all of [s]
    when it has none. *)
Fixpoint split_comma_first (s : string) : string :=
  match s with
  | EmptyString => EmptyString
  | String c rest =>
      if Ascii.eqb c "," then EmptyString
      else String c (split_comma_first rest)
  end.

(** [getClientId(req)], as a function of [req.headers]; a header that is
    absent reads as [undefined]. *)
Definition getClientId (headers : gmap string header_value) : string :=
  let forwarded := headers !! "x-forwarded-for" in
  let realIp := headers !! "x-real-ip" in
  match forwarded with
  | Some (HeaderString forwarded) => trim (split_comma_first forwarded)
  | _ =>
      match realIp with
      | Some (HeaderString realIp) => realIp
      | _ => "unknown"
      end
  end.

(** [String(n)] for an integer [n]: its decimal digits, after a minus sign
    when it is negative. *)
Definition number_to_string (n : Z) : string := pretty n.

(** [addRateLimitHeaders(headers, result)]: the object [headers] is updated
    in place; it is passed in and returned. [Math.floor(x / 1000)] of an
    integer is the floor division. *)
Definition addRateLimitHeaders (headers : gmap string string)
    (result : RateLimitResult) : gmap string string :=
  let headers :=
    <["X-RateLimit-Limit" := number_to_string (maxRequests DEFAULT_CONFIG)]>
      headers in
  let headers :=
    <["X-RateLimit-Remaining" := number_to_string (remaining result)]>
      headers in
  <["X-RateLimit-Reset" := number_to_string (resetAt result / 1000)]> headers.

(** ** The verification endpoint ([api/verify.ts]) *)

(** A field of the parsed JSON body as the handler finds it. The cast
    [req.body as VerifyRequest] checks nothing, so a field can be missing
    ([undefined]) or hold any JSON value: [null], a boolean, a number, a
    string, an array, an object. A number stands for any number that is 0
    or not 0. The items of an array are the values the verifier sees; an
    item that is itself an array or an object behaves there as the other
    values that are not strings do. Of an object only one thing matters
    here, whether [Buffer.from] builds a buffer from it as from an array:
    it does for an object with a numeric [length] and for a serialized
    buffer ([{type: 'Buffer', data: [...]}]), whose entries are then
    [Some entries]; an object that [Buffer.from] rejects is
    [VObject None]. *)
Inductive body_value : Type :=
  | VMissing
  | VNull
  | VBool (b : bool)
  | VNum (n : Z)
  | VText (s : string)
  | VArray (items : list jsval)
  | VObject (entries : option (list jsval)).

Module VerifyRequest.
Record t : Type := mk {
  proof : body_value;
  publicInputs : body_value;
  tagSignature : body_value;
  challenge : body_value;
  tagUid : body_value
}.
End VerifyRequest.

Module VerifyResponse.
Record details_t : Type := mk_details {
  proofValid : bool;
  tagAuthValid : bool;
  rootValid : bool
}.
Record t : Type := mk {
  success : bool;
  authentic : bool;
  timestamp : string;
  error : option string;
  details : option details_t
}.
End VerifyResponse.

(** What the handler reads of the request: [req.method], [req.headers] and
    [req.body] ([None] for a request whose body is [undefined] or
    [null]). *)
Record VercelRequest : Type := {
  method : option string;
  headers : gmap string header_value;
  body : option VerifyRequest.t
}.

(** What the handler sends: [res.status(code).json(payload)], or
    [res.status(code).end()] when there is no payload. *)
Record HttpResponse : Type := {
  status : Z;
  json : option VerifyResponse.t
}.

(** The built-in operations of the platform that the handler relies on and
    that are not code of this repository: the base64 decoder behind
    [Buffer.from(text, 'base64')], the conversion of an array to bytes
    behind [Buffer.from(array)], and the iteration of a string, which
    yields its code points. *)
Record engine : Type := {
  Buffer_from_base64 : string -> Buffer;
  Buffer_from_array : list jsval -> Buffer;
  string_code_points : string -> list string
}.

(** [!value] is false exactly for a truthy value: everything but
    [undefined], [null], [false], [0] and the empty string. *)
Definition truthy (value : body_value) : bool :=
  match value with
  | VMissing | VNull => false
  | VBool b => b
  | VNum n => negb (n =? 0)
  | VText s => negb (String.eqb s "")
  | VArray _ | VObject _ => true
  end.

(** [Buffer.from(value, 'base64')]: a string is decoded, an array (or an
    object taken for one) is copied, anything else is a [TypeError]. *)
Definition Buffer_from (node : engine) (value : body_value) : JS Buffer :=
  match value with
  | VText s => ret (Buffer_from_base64 node s)
  | VArray items => ret (Buffer_from_array node items)
  | VObject (Some entries) => ret (Buffer_from_array node entries)
  | _ => throw (TypeError "The first argument must be of type string or an instance of Buffer, ArrayBuffer, or Array or an Array-like Object")
  end.

(** What [verifyProof] gets when it destructures and indexes
    [input.publicInputs]: the items of an array, the code points of a
    string, and a [TypeError] for a value that is not iterable. (For a
    string, [length] counts UTF-16 units rather than code points; the two
    differ only when the check has already failed on the first code point,
    which is a string of one character and so never begins with
    ["0x"].) *)
Definition iterate (node : engine) (value : body_value) : JS (list jsval) :=
  match value with
  | VArray items => ret items
  | VText s => ret (map JStr (string_code_points node s))
  | _ => throw (TypeError "input.publicInputs is not iterable")
  end.

(** [verifyTagAuth] only tests [!tagUid]: a truthy [tagUid] that is not a
    string reaches it as a value that is not empty. *)
Definition tagUid_text (value : body_value) : string :=
  match value with
  | VText s => s
  | _ => "[object Object]"
  end.

(** The answer to a request that is not verified. *)
Definition failure (code : Z) (timestamp message : string) : HttpResponse :=
  {| status := code;
     json := Some {| VerifyResponse.success := false;
                     VerifyResponse.authentic := false;
                     VerifyResponse.timestamp := timestamp;
                     VerifyResponse.error := Some message;
                     VerifyResponse.details := None |} |}.

(** The statements inside the handler's [try] block; [timestamp] is the
    value of [new Date().toISOString()]. The three buffers are built, in
    the order of the object literal, before [verifyProof] is called, whose
    first statement destructures [publicInputs]. *)
Definition handler_body (node : engine) (req : VercelRequest)
    (timestamp : string) : JS HttpResponse :=
  match body req with
  | None => throw (TypeError "Cannot read properties of undefined")
  | Some body =>
      if (negb (truthy (VerifyRequest.proof body))
          || negb (truthy (VerifyRequest.publicInputs body))
          || negb (truthy (VerifyRequest.tagSignature body))
          || negb (truthy (VerifyRequest.challenge body))
          || negb (truthy (VerifyRequest.tagUid body)))%bool
      then ret (failure 400 timestamp "Missing required fields")
      else
        (let* proof := Buffer_from node (VerifyRequest.proof body) in
         let* tagSignature :=
           Buffer_from node (VerifyRequest.tagSignature body) in
         let* challenge := Buffer_from node (VerifyRequest.challenge body) in
         let* publicInputs :=
           iterate node (VerifyRequest.publicInputs body) in
         let* result :=
           verifyProof
             {| proof := proof;
                publicInputs := publicInputs;
                tagSignature := tagSignature;
                challenge := challenge;
                tagUid := tagUid_text (VerifyRequest.tagUid body) |} in
         ret {| status := 200;
                json :=
                  Some {| VerifyResponse.success := true;
                          VerifyResponse.authentic := authentic result;
                          VerifyResponse.timestamp := timestamp;
                          VerifyResponse.error := None;
                          VerifyResponse.details :=
                            Some {| VerifyResponse.proofValid :=
                                      proofValid result;
                                    VerifyResponse.tagAuthValid :=
                                      tagAuthValid result;
                                    VerifyResponse.rootValid :=
                                      rootValid result |} |} |})%js
  end.

(** The endpoint's [handler(req, res)]: the response sent, and the rate
    limiter's map after the call. [now] is the value [rateLimit] reads from
    [Date.now()]. *)
Definition handler (node : engine) (req : VercelRequest) (now : Z)
    (timestamp : string) (requests : gmap string Entry.t)
  : JS (HttpResponse * gmap string Entry.t) :=
  if bool_decide (method req = Some "OPTIONS") then
    ret ({| status := 200; json := None |}, requests)
  else if negb (bool_decide (method req = Some "POST")) then
    ret (failure 405 timestamp "Method not allowed", requests)
  else
    let '(rateLimitResult, requests) :=
      rateLimit (getClientId (headers req)) now DEFAULT_CONFIG requests in
    if negb (success rateLimitResult) then
      ret (failure 429 timestamp "Too many requests. Please try again later.",
           requests)
    else
      (let* response :=
         try_catch (handler_body node req timestamp)
           (fun error =>
              do console_error "Verification error:" error in
              ret (failure 500 timestamp "Internal server error")) in
       ret (response, requests))%js.

(** ** Notions used to state the properties *)

(** A run-time value that is a string beginning with ["0x"]. *)
Definition has_0x_prefix (v : jsval) : Prop :=
  ∃ s, v = JStr s ∧ String.prefix "0x" s = true.

(** The specification's notion of a hexadecimal digit; the source has no
    counterpart of it. *)
Definition is_hex_digit (c : ascii) : bool :=
  let n := nat_of_ascii c in
  ((48 <=? n) && (n <=? 57) || (65 <=? n) && (n <=? 70)
   || (97 <=? n) && (n <=? 102))%nat%bool.

Fixpoint all_hex_digits (s : string) : bool :=
  match s with
  | EmptyString => true
  | String c s => is_hex_digit c && all_hex_digits s
  end.

(** The characters of [s] after its two-character prefix. *)
Definition after_prefix (s : string) : string :=
  String.substring 2 (String.length s - 2) s.

(** A run-time value that is a string. *)
Definition is_string (v : jsval) : Prop := ∃ s, v = JStr s.

(** The inputs on which the [try] block of [verifyZKProof] throws: the
    guards on the lengths pass and [startsWith] is reached on an entry that
    is not a string (the second entry is reached only when the first one
    has the prefix). *)
Definition zk_faults (proof : Buffer) (publicInputs : list jsval) : Prop :=
  proof ≠ []
  ∧ (2 ≤ length publicInputs)%nat
  ∧ (¬ is_string (array_get publicInputs 0)
     ∨ (has_0x_prefix (array_get publicInputs 0)
        ∧ ¬ is_string (array_get publicInputs 1))).

(** A body field that the handler counts as missing: [!value] is true. *)
Definition falsy (value : body_value) : Prop :=
  value = VMissing ∨ value = VNull ∨ value = VBool false
  ∨ value = VNum 0 ∨ value = VText "".

(** A body field that [Buffer.from] accepts: a string, an array, or an
    object taken for an array. *)
Definition buffer_like (value : body_value) : Prop :=
  (∃ s, value = VText s) ∨ (∃ items, value = VArray items)
  ∨ (∃ entries, value = VObject (Some entries)).

(** A body field that can be destructured: an array or a string. *)
Definition iterable (value : body_value) : Prop :=
  (∃ items, value = VArray items) ∨ (∃ s, value = VText s).

(** None of the five fields counts as missing. *)
Definition all_present (b : VerifyRequest.t) : Prop :=
  truthy (VerifyRequest.proof b) = true
  ∧ truthy (VerifyRequest.publicInputs b) = true
  ∧ truthy (VerifyRequest.tagSignature b) = true
  ∧ truthy (VerifyRequest.challenge b) = true
  ∧ truthy (VerifyRequest.tagUid b) = true.

(** The answer that carries a verdict. *)
Definition verified (timestamp : string) (r : VerificationResult)
  : HttpResponse :=
  {| status := 200;
     json :=
       Some {| VerifyResponse.success := true;
               VerifyResponse.authentic := authentic r;
               VerifyResponse.timestamp := timestamp;
               VerifyResponse.error := None;
               VerifyResponse.details :=
                 Some {| VerifyResponse.proofValid := proofValid r;
                         VerifyResponse.tagAuthValid := tagAuthValid r;
                         VerifyResponse.rootValid := rootValid r |} |} |}.

(** The state after the handler's [catch] clause. *)
Definition logged (w : world) (e : exn) : world :=
  {| VALID_ROOTS := VALID_ROOTS w;
     console := (console w ++ [ConsoleError "Verification error:" e])%list |}.

(** ** Sample data *)

(** The request of the example client, with a 16-byte tag signature. *)
Definition sample_input : VerificationInput :=
  {| proof := list_byte_of_string "Hello World";
     publicInputs :=
       [JStr "0x1234567890abcdef1234567890abcdef1234567890abcdef1234567890abcdef";
        JStr "0xabcdef1234567890abcdef1234567890abcdef1234567890abcdef1234567890"];
     tagSignature := list_byte_of_string "signaturedata123";
     challenge := list_byte_of_string "challengedata";
     tagUid := "E004012345678910" |}.

(** A burst of 100 requests, all at the same millisecond. *)
Definition sample_burst : list Z := repeat 1500 100.

(** The rate limiter's map with three clients: one at the limit, one in
    the middle of its window, one whose window ended long ago. *)
Definition sample_requests : gmap string Entry.t :=
  {[ "203.0.113.7" := Entry.mk 100 5000;
     "198.51.100.2" := Entry.mk 3 9000;
     "192.0.2.1" := Entry.mk 7 1000 ]}.

(** The headers of a request that came through a proxy. *)
Definition sample_headers : gmap string header_value :=
  {[ "x-forwarded-for" := HeaderString " 203.0.113.7 , 10.0.0.1";
     "x-real-ip" := HeaderString "10.0.0.9" ]}.

(** The body the example client sends. *)
Definition sample_body : VerifyRequest.t :=
  VerifyRequest.mk
    (VText "SGVsbG8gV29ybGQ=")
    (VArray [JStr "0x1234567890abcdef1234567890abcdef1234567890abcdef1234567890abcdef";
             JStr "0xabcdef1234567890abcdef1234567890abcdef1234567890abcdef1234567890"])
    (VText "c2lnbmF0dXJlZGF0YQ==")
    (VText "Y2hhbGxlbmdlZGF0YQ==")
    (VText "E004012345678910").

Definition sample_post : VercelRequest :=
  {| method := Some "POST";
     headers := sample_headers;
     body := Some sample_body |}.

(** A stand-in for the platform at sample inputs: a text decodes to its own
    bytes, an array to as many zero bytes, and a string iterates byte by
    byte. *)
Definition sample_engine : engine :=
  {| Buffer_from_base64 := list_byte_of_string;
     Buffer_from_array := fun items => repeat x00%byte (length items);
     string_code_points :=
       fun s => map (fun c => String c EmptyString) (list_ascii_of_string s)
  |}.

(** A limit of three requests per second. *)
Definition sample_config : RateLimitConfig :=
  {| maxRequests := 3; windowMs := 1000 |}.

(** * Properties of the verifier *)

Local Ltac unfold_js :=
  unfold try_catch, bind, lazy_or, js_not, startsWith, console_error,
    ret, throw in *; cbn [fst snd] in *.

(** The tag check cannot throw and has no effect: its value is a function
    of the emptiness of [tagUid], and of the lengths of the two buffers. *)
Lemma verifyTagAuth_value (tagUid : string) (challenge signature : Buffer) w :
  verifyTagAuth tagUid challenge signature w =
    (Return (negb (String.eqb tagUid "")
             && negb (length challenge =? 0)%nat
             && (length signature =? 16)%nat)%bool, w).
Proof.
  unfold verifyTagAuth, verifyTagAuth_body. unfold_js.
  destruct (String.eqb tagUid ""); cbn; [reflexivity |].
  destruct (length challenge =? 0)%nat; cbn; [reflexivity |].
  destruct (length signature =? 0)%nat eqn:E0; cbn.
  - apply Nat.eqb_eq in E0. rewrite E0. reflexivity.
  - destruct (length signature =? 16)%nat; reflexivity.
Qed.

(** What the [catch] clause of [verifyZKProof] does with an exception. *)
Lemma verifyZKProof_caught (proof : Buffer) (publicInputs : list jsval)
    w e w1 :
  verifyZKProof_body proof publicInputs w = (Throw e, w1) →
  verifyZKProof proof publicInputs w =
    (Return false,
     {| VALID_ROOTS := VALID_ROOTS w1;
        console := (console w1
                      ++ [ConsoleError "ZK proof verification error:" e])%list
     |}).
Proof.
  intros Hbody. unfold verifyZKProof, try_catch. rewrite Hbody.
  reflexivity.
Qed.

Lemma verifyZKProof_passed (proof : Buffer) (publicInputs : list jsval)
    w b w1 :
  verifyZKProof_body proof publicInputs w = (Return b, w1) →
  verifyZKProof proof publicInputs w = (Return b, w1).
Proof.
  intros Hbody. unfold verifyZKProof, try_catch. rewrite Hbody.
  reflexivity.
Qed.

(** The [try] block itself never changes the state. *)
Lemma verifyZKProof_body_pure (proof : Buffer) (publicInputs : list jsval)
    w c w1 :
  verifyZKProof_body proof publicInputs w = (c, w1) → w1 = w.
Proof.
  unfold verifyZKProof_body. unfold_js.
  destruct (length proof =? 0)%nat; [congruence |].
  destruct (length publicInputs <? 2)%nat; [congruence |].
  destruct (array_get publicInputs 0) as [| | | |s0]; cbn;
    try congruence.
  destruct (String.prefix "0x" s0); cbn; [| congruence].
  destruct (array_get publicInputs 1) as [| | | |s1]; cbn;
    try congruence.
  destruct (String.prefix "0x" s1); cbn; congruence.
Qed.

(** [verifyZKProof] always returns a boolean; the set of roots is left
    alone and the console grows by at most one line. *)
Lemma verifyZKProof_returns (proof : Buffer) (publicInputs : list jsval) w :
  ∃ b w',
    verifyZKProof proof publicInputs w = (Return b, w')
    ∧ VALID_ROOTS w' = VALID_ROOTS w
    ∧ (w' = w
       ∨ ∃ e, b = false
              ∧ console w' =
                  (console w
                     ++ [ConsoleError "ZK proof verification error:" e])%list).
Proof.
  destruct (verifyZKProof_body proof publicInputs w) as [[b|e] w1] eqn:Hbody.
  - pose proof (verifyZKProof_body_pure _ _ _ _ _ Hbody) as ->.
    exists b, w. rewrite (verifyZKProof_passed _ _ _ _ _ Hbody). auto.
  - pose proof (verifyZKProof_body_pure _ _ _ _ _ Hbody) as ->.
    eexists _, _. rewrite (verifyZKProof_caught _ _ _ _ _ Hbody).
    split; [reflexivity |]. split; [reflexivity |]. right. eauto.
Qed.

(** The value of the [try] block when both of the first two entries are
    strings. *)
Lemma verifyZKProof_body_strings (proof : Buffer)
    (publicInputs : list jsval) (s0 s1 : string) w :
  array_get publicInputs 0 = JStr s0 →
  array_get publicInputs 1 = JStr s1 →
  verifyZKProof_body proof publicInputs w =
    (Return (negb (length proof =? 0)%nat
             && negb (length publicInputs <? 2)%nat
             && String.prefix "0x" s0 && String.prefix "0x" s1)%bool, w).
Proof.
  intros H0 H1. unfold verifyZKProof_body. unfold_js.
  destruct (length proof =? 0)%nat; [reflexivity |].
  destruct (length publicInputs <? 2)%nat; [reflexivity |].
  rewrite H0, H1. cbn.
  destruct (String.prefix "0x" s0); cbn; [| reflexivity].
  destruct (String.prefix "0x" s1); reflexivity.
Qed.

(** ** The orchestrator *)

(** C1. For every verification request, [verifyProof] returns a result; its
    three sub-check fields are the values returned by [verifyZKProof],
    [verifyTagAuth] and [verifyRoot], each of which is run (in this order,
    each on the state left by the one before) whatever the others return,
    and [authentic] is exactly the conjunction of the three. *)
Theorem verifyProof_authentic_is_and (input : VerificationInput) (w : world) :
  ∃ (pv tv rv : bool) (w1 w2 w3 : world),
    verifyZKProof (proof input) (publicInputs input) w = (Return pv, w1)
    ∧ verifyTagAuth (tagUid input) (challenge input) (tagSignature input) w1
      = (Return tv, w2)
    ∧ verifyRoot (array_get (publicInputs input) 0) w2 = (Return rv, w3)
    ∧ verifyProof input w =
        (Return {| authentic := pv && tv && rv;
                   proofValid := pv;
                   tagAuthValid := tv;
                   rootValid := rv |}, w3)
    ∧ ∀ r, fst (verifyProof input w) = Return r →
           authentic r = proofValid r && tagAuthValid r && rootValid r.
Proof.
  destruct (verifyZKProof_returns (proof input) (publicInputs input) w)
    as (pv & w1 & Hzk & _).
  pose proof (verifyTagAuth_value (tagUid input) (challenge input)
                (tagSignature input) w1) as Htag.
  set (tv := (negb (String.eqb (tagUid input) "")
              && negb (length (challenge input) =? 0)%nat
              && (length (tagSignature input) =? 16)%nat)%bool) in Htag.
  destruct (verifyRoot (array_get (publicInputs input) 0) w1)
    as [rc w3] eqn:Hroot.
  assert (∃ rv, rc = Return rv ∧ w3 = w1) as (rv & -> & ->).
  { unfold verifyRoot in Hroot. inversion Hroot; subst. eauto. }
  assert (verifyProof input w =
            (Return {| authentic := pv && tv && rv; proofValid := pv;
                       tagAuthValid := tv; rootValid := rv |}, w1)) as Hall.
  { unfold verifyProof, bind. rewrite Hzk, Htag, Hroot. reflexivity. }
  exists pv, tv, rv, w1, w1, w1. repeat split; try assumption.
  intros r. rewrite Hall. cbn. intros [= <-]. reflexivity.
Qed.

(** C2. When the proof buffer is non-empty, [publicInputs] has at least two
    entries each of which is a string beginning with ["0x"], [tagUid] and
    the challenge are non-empty and the signature has 16 bytes, then
    [proofValid] and [tagAuthValid] are true whatever the bytes are, and
    [authentic] is the membership of [publicInputs[0]] in the trusted
    roots. *)
Theorem verifyProof_stub_checks_pass (input : VerificationInput) (w : world) :
  proof input ≠ [] →
  (2 ≤ length (publicInputs input))%nat →
  Forall has_0x_prefix (publicInputs input) →
  tagUid input ≠ "" →
  challenge input ≠ [] →
  length (tagSignature input) = 16%nat →
  ∃ root : string,
    publicInputs input !! 0%nat = Some (JStr root)
    ∧ verifyProof input w =
        (Return {| authentic := bool_decide (root ∈ VALID_ROOTS w);
                   proofValid := true;
                   tagAuthValid := true;
                   rootValid := bool_decide (root ∈ VALID_ROOTS w) |}, w).
Proof.
  intros Hproof Hlen Hall Huid Hch Hsig.
  destruct (publicInputs input) as [|v0 [|v1 rest]] eqn:Hpi;
    cbn in Hlen; try lia.
  apply Forall_cons in Hall as [(s0 & -> & Hs0) Hall].
  apply Forall_cons in Hall as [(s1 & -> & Hs1) _].
  exists s0. split; [reflexivity |].
  unfold verifyProof, bind. rewrite Hpi.
  rewrite (verifyZKProof_passed (proof input) (JStr s0 :: JStr s1 :: rest) w
             true w).
  2:{ rewrite (verifyZKProof_body_strings _ _ s0 s1) by reflexivity.
      rewrite Hs0, Hs1. destruct (proof input); [congruence | reflexivity]. }
  rewrite verifyTagAuth_value, Hsig.
  destruct (String.eqb_spec (tagUid input) ""); [congruence |].
  destruct (challenge input); [congruence |].
  reflexivity.
Qed.

(** ** The tag authenticator *)

(** C3. [verifyTagAuth] returns [false], without throwing and without any
    effect, whenever [tagUid] is empty, or the challenge is empty, or the
    signature is not exactly 16 bytes long. *)
Theorem verifyTagAuth_rejects_malformed (tagUid : string)
    (challenge signature : Buffer) (w : world) :
  tagUid = "" ∨ challenge = [] ∨ length signature ≠ 16%nat →
  verifyTagAuth tagUid challenge signature w = (Return false, w).
Proof.
  intros H. rewrite verifyTagAuth_value. f_equal. f_equal.
  destruct H as [-> | [-> | H]]; [reflexivity | |].
  - destruct (String.eqb tagUid ""); reflexivity.
  - apply Nat.eqb_neq in H. rewrite H.
    destruct (String.eqb tagUid ""), (length challenge =? 0)%nat; reflexivity.
Qed.

(** ** The membership-proof check *)

(** C4. [verifyZKProof] returns [false] whenever the proof buffer is empty,
    or [publicInputs] has fewer than two entries, or one of the first two
    entries does not begin with ["0x"]. Nothing else happens in these cases:
    the trusted roots are untouched and the console is either untouched or
    has received the one line of the [catch] clause, so no call into a proof
    system takes place. *)
Theorem verifyZKProof_rejects_malformed (proof : Buffer)
    (publicInputs : list jsval) (w : world) :
  proof = []
  ∨ (length publicInputs < 2)%nat
  ∨ ¬ has_0x_prefix (array_get publicInputs 0)
  ∨ ¬ has_0x_prefix (array_get publicInputs 1) →
  ∃ w',
    verifyZKProof proof publicInputs w = (Return false, w')
    ∧ VALID_ROOTS w' = VALID_ROOTS w
    ∧ (w' = w
       ∨ ∃ e, console w' =
                (console w
                   ++ [ConsoleError "ZK proof verification error:" e])%list).
Proof.
  intros Hbad.
  destruct (verifyZKProof_returns proof publicInputs w)
    as (b & w' & Hrun & Hroots & Hlog).
  assert (b = false) as ->.
  { destruct Hlog as [-> | (e & -> & _)]; [| reflexivity].
    destruct (verifyZKProof_body proof publicInputs w) as [[b'|e] w1] eqn:Hb.
    2:{ rewrite (verifyZKProof_caught _ _ _ _ _ Hb) in Hrun.
        congruence. }
    rewrite (verifyZKProof_passed _ _ _ _ _ Hb) in Hrun.
    injection Hrun as -> _. clear Hroots.
    unfold verifyZKProof_body in Hb. unfold_js.
    destruct Hbad as [-> | [Hlen | Hpre]]; [cbn in Hb; congruence | |].
    - apply Nat.ltb_lt in Hlen. rewrite Hlen in Hb.
      destruct (length proof =? 0)%nat; congruence.
    - destruct (length proof =? 0)%nat; [congruence |].
      destruct (length publicInputs <? 2)%nat; [congruence |].
      unfold has_0x_prefix in Hpre.
      destruct (array_get publicInputs 0) as [| | | |s0]; cbn in Hb;
        try congruence.
      destruct (String.prefix "0x" s0) eqn:E0; cbn in Hb; [| congruence].
      destruct (array_get publicInputs 1) as [| | | |s1]; cbn in Hb;
        try congruence.
      destruct (String.prefix "0x" s1) eqn:E1; cbn in Hb; [| congruence].
      exfalso. destruct Hpre as [Hpre | Hpre]; apply Hpre; eauto. }
  exists w'. split; [assumption |]. split; [assumption |].
  destruct Hlog as [-> | (e & _ & He)]; eauto.
Qed.

(** C5, as stated, fails: the first entry below begins with ["0x"] and goes
    on with two characters that are not hexadecimal digits, and the check
    accepts it. *)
Lemma verifyZKProof_accepts_non_hex :
  String.prefix "0x" "0xZZ" = true
  ∧ all_hex_digits (after_prefix "0xZZ") = false
  ∧ verifyZKProof [x01%byte] [JStr "0xZZ"; JStr "0x12"] initial_world
    = (Return true, initial_world).
Proof. repeat split. Qed.

(** C5, amended. The check looks at the two-character prefix of the first
    two entries and at nothing after it: with a non-empty proof buffer and
    the first two entries strings beginning with ["0x"], [verifyZKProof]
    returns [true], whether or not the remaining characters are hexadecimal
    digits. *)
Theorem verifyZKProof_checks_prefix_only (proof : Buffer)
    (publicInputs : list jsval) (s0 s1 : string) (w : world) :
  proof ≠ [] →
  publicInputs !! 0%nat = Some (JStr s0) →
  publicInputs !! 1%nat = Some (JStr s1) →
  String.prefix "0x" s0 = true →
  String.prefix "0x" s1 = true →
  verifyZKProof proof publicInputs w = (Return true, w).
Proof.
  intros Hproof H0 H1 Hs0 Hs1.
  destruct publicInputs as [|v0 [|v1 rest]]; try discriminate.
  cbn in H0, H1. injection H0 as ->. injection H1 as ->.
  apply verifyZKProof_passed.
  rewrite (verifyZKProof_body_strings _ _ s0 s1) by reflexivity.
  rewrite Hs0, Hs1. destruct proof; [congruence | reflexivity].
Qed.

(** ** The root registry *)

(** C8. For every string [root], [verifyRoot] returns normally, leaves the
    state (the trusted roots included) as it was, and its result is [true]
    exactly when [root] is in the trusted-root set; an unknown root gives
    [false]. *)
Theorem verifyRoot_is_membership (root : string) (w : world) :
  ∃ b : bool,
    verifyRoot (JStr root) w = (Return b, w)
    ∧ (b = true ↔ root ∈ VALID_ROOTS w)
    ∧ (root ∉ VALID_ROOTS w → b = false).
Proof.
  exists (bool_decide (root ∈ VALID_ROOTS w)).
  split; [reflexivity |]. split.
  - apply bool_decide_eq_true.
  - apply bool_decide_eq_false.
Qed.

(** * Properties of the rate limiter *)

(** The clean-up loop keeps exactly the entries that have not expired. *)
Lemma cleanup_lookup_Some (now : Z) (requests : gmap string Entry.t)
    (clientId : string) (record : Entry.t) :
  cleanup now requests !! clientId = Some record
  ↔ requests !! clientId = Some record ∧ ¬ (Entry.resetAt record < now).
Proof. unfold cleanup. apply map_lookup_filter_Some. Qed.

Lemma cleanup_lookup_expired (now : Z) (requests : gmap string Entry.t)
    (clientId : string) :
  (∀ record, requests !! clientId = Some record →
             Entry.resetAt record < now) →
  cleanup now requests !! clientId = None.
Proof.
  intros Hexp. unfold cleanup. apply map_lookup_filter_None.
  destruct (requests !! clientId) as [record|] eqn:Hget; [right | left; done].
  intros record' [= <-] Hkeep. cbn in Hkeep. apply Hkeep, Hexp. reflexivity.
Qed.

(** A call by a client that has no record, or whose record has expired
    ([resetAt < now]), opens a new window. *)
Lemma rateLimit_new_window (clientId : string) (now : Z)
    (config : RateLimitConfig) (requests : gmap string Entry.t) :
  (∀ record, requests !! clientId = Some record →
             Entry.resetAt record < now) →
  rateLimit clientId now config requests =
    ({| success := true;
        remaining := maxRequests config - 1;
        resetAt := now + windowMs config |},
     <[clientId := Entry.mk 1 (now + windowMs config)]>
       (cleanup now requests)).
Proof.
  intros Hexp. unfold rateLimit.
  rewrite (cleanup_lookup_expired _ _ _ Hexp). reflexivity.
Qed.

(** A call by a client whose record has not expired ([now <= resetAt]) is
    counted against that record. *)
Lemma rateLimit_in_window (clientId : string) (now : Z)
    (config : RateLimitConfig) (requests : gmap string Entry.t)
    (record : Entry.t) :
  requests !! clientId = Some record →
  now ≤ Entry.resetAt record →
  rateLimit clientId now config requests =
    if bool_decide (Entry.count record >= maxRequests config) then
      ({| success := false; remaining := 0;
          resetAt := Entry.resetAt record |},
       cleanup now requests)
    else
      ({| success := true;
          remaining := maxRequests config - (Entry.count record + 1);
          resetAt := Entry.resetAt record |},
       <[clientId := Entry.mk (Entry.count record + 1)
                       (Entry.resetAt record)]> (cleanup now requests)).
Proof.
  intros Hget Hnow. unfold rateLimit.
  assert (cleanup now requests !! clientId = Some record) as ->.
  { apply cleanup_lookup_Some. split; [exact Hget | lia]. }
  rewrite bool_decide_eq_false_2 by lia. reflexivity.
Qed.

(** A run of calls that all fall inside the window of the client's record:
    the [i]-th call (from 0) is allowed while [count + i] is below the
    limit and rejected from then on, and the record ends with the count
    capped at the limit. *)
Lemma rateLimit_run_in_window (clientId : string) (config : RateLimitConfig)
    (R : Z) (times : list Z) :
  ∀ (k : Z) (requests : gmap string Entry.t),
    requests !! clientId = Some (Entry.mk k R) →
    k ≤ maxRequests config →
    Forall (fun t => t ≤ R) times →
    let run := rateLimit_run clientId config times requests in
    length (fst run) = length times
    ∧ snd run !! clientId
      = Some (Entry.mk (Z.min (k + Z.of_nat (length times))
                          (maxRequests config)) R)
    ∧ ∀ (i : nat) (r : RateLimitResult),
        fst run !! i = Some r →
        resetAt r = R
        ∧ if bool_decide (k + Z.of_nat i < maxRequests config)
          then success r = true
               ∧ remaining r = maxRequests config - (k + Z.of_nat i + 1)
          else success r = false ∧ remaining r = 0.
Proof.
  induction times as [|now times IH]; intros k requests Hget Hk Hall.
  - cbn. split; [reflexivity |]. split.
    + rewrite Hget. f_equal. f_equal. lia.
    + intros i r Hi. destruct i; discriminate.
  - apply Forall_cons in Hall as [Hnow Hall].
    cbn [rateLimit_run].
    rewrite (rateLimit_in_window _ _ _ _ _ Hget Hnow). cbn [Entry.count
      Entry.resetAt].
    destruct (bool_decide_reflect (k >= maxRequests config)) as [Hfull|Hroom].
    + assert (cleanup now requests !! clientId = Some (Entry.mk k R)) as Hget'.
      { apply cleanup_lookup_Some. split; [exact Hget | cbn; lia]. }
      specialize (IH k _ Hget' Hk Hall).
      destruct (rateLimit_run clientId config times (cleanup now requests))
        as [results requests'].
      cbn in IH |- *. destruct IH as (Hlen & Hfinal & Hres).
      split; [lia |]. split.
      * rewrite Hfinal. f_equal. f_equal. lia.
      * intros [|i] r Hi; cbn in Hi.
        -- injection Hi as <-. cbn. split; [reflexivity |].
           rewrite bool_decide_eq_false_2 by lia. auto.
        -- destruct (Hres i r Hi) as [HR Hi']. split; [exact HR |].
           rewrite bool_decide_eq_false_2 in Hi' by lia.
           rewrite bool_decide_eq_false_2 by lia. exact Hi'.
    + set (requests1 := <[clientId := Entry.mk (k + 1) R]>
                          (cleanup now requests)).
      assert (requests1 !! clientId = Some (Entry.mk (k + 1) R)) as Hget'.
      { apply lookup_insert_eq. }
      assert (k + 1 ≤ maxRequests config) as Hk' by lia.
      specialize (IH (k + 1) _ Hget' Hk' Hall).
      destruct (rateLimit_run clientId config times requests1)
        as [results requests'].
      cbn in IH |- *. destruct IH as (Hlen & Hfinal & Hres).
      split; [lia |]. split.
      * rewrite Hfinal. f_equal. f_equal. lia.
      * intros [|i] r Hi; cbn in Hi.
        -- injection Hi as <-. cbn. split; [reflexivity |].
           rewrite bool_decide_eq_true_2 by lia. split; [reflexivity | lia].
        -- destruct (Hres i r Hi) as [HR Hi']. split; [exact HR |].
           replace (k + Z.of_nat (S i)) with (k + 1 + Z.of_nat i) by lia.
           exact Hi'.
Qed.

(** C6. With the default configuration (100 requests per 60000 ms), let a
    client whose first request opens a window at [t0] send 100 more
    requests, all before [resetAt = t0 + 60000]: each of the first 100 is
    allowed, the 101st is rejected with [remaining = 0], and a request at a
    time [t'] after [resetAt] is allowed again, with a record of count 1 and
    the new [resetAt = t' + 60000]. *)
Theorem rateLimit_hundred_then_reject (clientId : string)
    (requests : gmap string Entry.t) (t0 : Z) (times : list Z) (t' : Z) :
  (∀ record, requests !! clientId = Some record →
             Entry.resetAt record < t0) →
  length times = 100%nat →
  Forall (fun t => t < t0 + 60000) times →
  t0 + 60000 < t' →
  let run := rateLimit_run clientId DEFAULT_CONFIG (t0 :: times) requests in
  let after := rateLimit clientId t' DEFAULT_CONFIG (snd run) in
  length (fst run) = 101%nat
  ∧ (∀ i : nat, (i < 100)%nat →
       ∃ r, fst run !! i = Some r
            ∧ success r = true
            ∧ remaining r = 99 - Z.of_nat i
            ∧ resetAt r = t0 + 60000)
  ∧ (∃ r, fst run !! 100%nat = Some r
          ∧ success r = false
          ∧ remaining r = 0)
  ∧ success (fst after) = true
  ∧ remaining (fst after) = 99
  ∧ resetAt (fst after) = t' + 60000
  ∧ snd after !! clientId = Some (Entry.mk 1 (t' + 60000)).
Proof.
  intros Hfresh Hlen Hall Hlater. cbn zeta. cbn [rateLimit_run].
  rewrite (rateLimit_new_window _ _ _ _ Hfresh).
  cbn [maxRequests windowMs DEFAULT_CONFIG].
  set (requests1 := <[clientId := Entry.mk 1 (t0 + 60000)]>
                      (cleanup t0 requests)).
  assert (requests1 !! clientId = Some (Entry.mk 1 (t0 + 60000))) as Hget.
  { apply lookup_insert_eq. }
  assert (Forall (fun t => t ≤ t0 + 60000) times) as Hall'.
  { eapply Forall_impl; [exact Hall |]. cbn. intros; lia. }
  pose proof (rateLimit_run_in_window clientId DEFAULT_CONFIG (t0 + 60000)
                times 1 requests1 Hget ltac:(cbn; lia) Hall') as Hrun.
  cbn zeta in Hrun.
  destruct (rateLimit_run clientId DEFAULT_CONFIG times requests1)
    as [results requests2].
  cbn [fst snd maxRequests DEFAULT_CONFIG] in Hrun |- *.
  destruct Hrun as (Hlen' & Hfinal & Hres).
  rewrite Hlen in Hlen', Hfinal.
  split; [cbn; lia |]. split; [| split].
  - intros [|i] Hi.
    + eexists. split; [reflexivity |]. cbn. auto.
    + destruct (lookup_lt_is_Some_2 results i) as [r Hr]; [lia |].
      exists r. split; [exact Hr |].
      destruct (Hres i r Hr) as [HR Hi'].
      rewrite bool_decide_eq_true_2 in Hi' by lia.
      destruct Hi' as [Hs Hrem]. repeat split; [exact Hs | lia | exact HR].
  - destruct (lookup_lt_is_Some_2 results 99) as [r Hr]; [lia |].
    exists r. split; [exact Hr |].
    destruct (Hres 99%nat r Hr) as [_ Hi'].
    rewrite bool_decide_eq_false_2 in Hi' by lia. exact Hi'.
  - rewrite rateLimit_new_window.
    + cbn. repeat split. apply lookup_insert_eq.
    + intros record. rewrite Hfinal. intros [= <-]. cbn. lia.
Qed.

(** C7, as stated, fails at the boundary [now = resetAt]: the client below
    has used up its window, its request arrives exactly at [resetAt], and it
    is rejected with the record left as it was. *)
Lemma rateLimit_boundary_not_reset :
  let requests : gmap string Entry.t :=
    {[ "203.0.113.7" := Entry.mk 100 5000 ]} in
  requests !! "203.0.113.7" = Some (Entry.mk 100 5000)
  ∧ 5000 >= Entry.resetAt (Entry.mk 100 5000)
  ∧ fst (rateLimit "203.0.113.7" 5000 DEFAULT_CONFIG requests)
    = {| success := false; remaining := 0; resetAt := 5000 |}
  ∧ snd (rateLimit "203.0.113.7" 5000 DEFAULT_CONFIG requests)
      !! "203.0.113.7" = Some (Entry.mk 100 5000).
Proof.
  cbn zeta. split; [reflexivity |]. split; [cbn; lia |].
  split; vm_compute; reflexivity.
Qed.

(** At the boundary [now = resetAt] a request is still counted in the old
    window, whose [resetAt] it keeps. *)
Lemma rateLimit_at_boundary (clientId : string) (config : RateLimitConfig)
    (requests : gmap string Entry.t) (record : Entry.t) :
  requests !! clientId = Some record →
  let now := Entry.resetAt record in
  resetAt (fst (rateLimit clientId now config requests))
  = Entry.resetAt record
  ∧ success (fst (rateLimit clientId now config requests))
    = bool_decide (Entry.count record < maxRequests config)
  ∧ ∃ record',
      snd (rateLimit clientId now config requests) !! clientId
      = Some record'
      ∧ Entry.resetAt record' = Entry.resetAt record
      ∧ Entry.count record'
        = if bool_decide (Entry.count record < maxRequests config)
          then Entry.count record + 1
          else Entry.count record.
Proof.
  intros Hget now. subst now.
  rewrite (rateLimit_in_window _ _ _ _ _ Hget) by lia.
  destruct (bool_decide_reflect (Entry.count record >= maxRequests config))
    as [Hfull|Hroom].
  - rewrite bool_decide_eq_false_2 by lia. cbn.
    split; [reflexivity |]. split; [reflexivity |].
    exists record. split; [| auto].
    apply cleanup_lookup_Some. split; [exact Hget | lia].
  - rewrite bool_decide_eq_true_2 by lia. cbn.
    split; [reflexivity |]. split; [reflexivity |].
    eexists. split; [apply lookup_insert_eq |]. cbn. auto.
Qed.

(** C7, amended. For a client with an existing record, a request at a time
    [now] with [resetAt < now] re-initialises the record to [count = 1] and
    [resetAt = now + windowMs] and is allowed with
    [remaining = maxRequests - 1]. *)
Theorem rateLimit_resets_after_window (clientId : string) (now : Z)
    (config : RateLimitConfig) (requests : gmap string Entry.t)
    (record : Entry.t) :
  requests !! clientId = Some record →
  Entry.resetAt record < now →
  fst (rateLimit clientId now config requests)
  = {| success := true;
       remaining := maxRequests config - 1;
       resetAt := now + windowMs config |}
  ∧ snd (rateLimit clientId now config requests) !! clientId
    = Some (Entry.mk 1 (now + windowMs config)).
Proof.
  intros Hget Hexp. rewrite rateLimit_new_window.
  - cbn. split; [reflexivity | apply lookup_insert_eq].
  - intros record'. rewrite Hget. intros [= <-]. exact Hexp.
Qed.

(** * The properties at sample inputs *)

(** The example client's request, against the initial roots. *)
Lemma verifyProof_stub_checks_pass_witness :
  ∃ root : string,
    publicInputs sample_input !! 0%nat = Some (JStr root)
    ∧ verifyProof sample_input initial_world =
        (Return {| authentic := bool_decide (root ∈ VALID_ROOTS initial_world);
                   proofValid := true;
                   tagAuthValid := true;
                   rootValid := bool_decide (root ∈ VALID_ROOTS initial_world)
                |}, initial_world).
Proof.
  apply (verifyProof_stub_checks_pass sample_input initial_world).
  - discriminate.
  - cbn. lia.
  - repeat constructor; eexists; split; reflexivity.
  - discriminate.
  - discriminate.
  - reflexivity.
Defined.

(** A 13-byte signature. *)
Lemma verifyTagAuth_rejects_malformed_witness :
  verifyTagAuth "E004012345678910" (list_byte_of_string "challengedata")
    (list_byte_of_string "signaturedata") initial_world
  = (Return false, initial_world).
Proof.
  apply (verifyTagAuth_rejects_malformed "E004012345678910"
           (list_byte_of_string "challengedata")
           (list_byte_of_string "signaturedata") initial_world).
  right. right. cbn. lia.
Defined.

(** A root without the ["0x"] prefix. *)
Lemma verifyZKProof_rejects_malformed_witness :
  ∃ w',
    verifyZKProof (list_byte_of_string "Hello World")
      [JStr "1234"; JStr "0xabcd"] initial_world = (Return false, w')
    ∧ VALID_ROOTS w' = VALID_ROOTS initial_world
    ∧ (w' = initial_world
       ∨ ∃ e, console w' =
                (console initial_world
                   ++ [ConsoleError "ZK proof verification error:" e])%list).
Proof.
  apply (verifyZKProof_rejects_malformed (list_byte_of_string "Hello World")
           [JStr "1234"; JStr "0xabcd"] initial_world).
  right. right. left. intros (s & Hs & Hpre). cbn in Hs.
  injection Hs as <-. discriminate Hpre.
Defined.

(** A root with the prefix and no hexadecimal digit after it. *)
Lemma verifyZKProof_checks_prefix_only_witness :
  verifyZKProof [x01%byte] [JStr "0xZZ"; JStr "0x12"] initial_world
  = (Return true, initial_world).
Proof.
  apply (verifyZKProof_checks_prefix_only [x01%byte]
           [JStr "0xZZ"; JStr "0x12"] "0xZZ" "0x12" initial_world);
    [discriminate | reflexivity ..].
Defined.

(** A new client: one request at 1000, a burst of 100 at 1500, one more at
    61001. *)
Lemma rateLimit_hundred_then_reject_witness :
  let run := rateLimit_run "203.0.113.7" DEFAULT_CONFIG
               (1000 :: sample_burst) ∅ in
  let after := rateLimit "203.0.113.7" 61001 DEFAULT_CONFIG (snd run) in
  length (fst run) = 101%nat
  ∧ (∀ i : nat, (i < 100)%nat →
       ∃ r, fst run !! i = Some r
            ∧ success r = true
            ∧ remaining r = 99 - Z.of_nat i
            ∧ resetAt r = 1000 + 60000)
  ∧ (∃ r, fst run !! 100%nat = Some r
          ∧ success r = false
          ∧ remaining r = 0)
  ∧ success (fst after) = true
  ∧ remaining (fst after) = 99
  ∧ resetAt (fst after) = 61001 + 60000
  ∧ snd after !! "203.0.113.7" = Some (Entry.mk 1 (61001 + 60000)).
Proof.
  apply (rateLimit_hundred_then_reject "203.0.113.7" ∅ 1000 sample_burst
           61001).
  - intros record Hget. rewrite lookup_empty in Hget. discriminate Hget.
  - reflexivity.
  - unfold sample_burst. cbn [repeat]. repeat (constructor; [lia |]).
    constructor.
  - lia.
Defined.

(** A client that used up its window, one millisecond after [resetAt]. *)
Lemma rateLimit_resets_after_window_witness :
  let requests : gmap string Entry.t :=
    {[ "203.0.113.7" := Entry.mk 100 5000 ]} in
  fst (rateLimit "203.0.113.7" 5001 DEFAULT_CONFIG requests)
  = {| success := true; remaining := 100 - 1; resetAt := 5001 + 60000 |}
  ∧ snd (rateLimit "203.0.113.7" 5001 DEFAULT_CONFIG requests)
      !! "203.0.113.7" = Some (Entry.mk 1 (5001 + 60000)).
Proof.
  apply (rateLimit_resets_after_window "203.0.113.7" 5001 DEFAULT_CONFIG
           {[ "203.0.113.7" := Entry.mk 100 5000 ]} (Entry.mk 100 5000)).
  - reflexivity.
  - cbn. lia.
Defined.

(** * Further properties of the verifier *)

(** The value of the membership-proof check, for every input. *)
Lemma verifyZKProof_value (proof : Buffer) (publicInputs : list jsval)
    (w : world) :
  ∃ (b : bool) (w' : world),
    verifyZKProof proof publicInputs w = (Return b, w')
    ∧ VALID_ROOTS w' = VALID_ROOTS w
    ∧ (b = true ↔
       proof ≠ [] ∧ (2 ≤ length publicInputs)%nat
       ∧ has_0x_prefix (array_get publicInputs 0)
       ∧ has_0x_prefix (array_get publicInputs 1)).
Proof.
  destruct (verifyZKProof_body proof publicInputs w) as [[b|e] w1] eqn:Hbody.
  - pose proof (verifyZKProof_body_pure _ _ _ _ _ Hbody) as ->.
    exists b, w. rewrite (verifyZKProof_passed _ _ _ _ _ Hbody).
    split; [reflexivity |]. split; [reflexivity |].
    unfold verifyZKProof_body in Hbody. unfold_js.
    destruct (Nat.ltb_spec (length publicInputs) 2) as [Hlen|Hlen].
    { assert (b = false) as ->
        by (destruct (length proof =? 0)%nat; congruence).
      split; [discriminate | intros (_ & ? & _); lia]. }
    destruct proof as [|x proof]; cbn [length Nat.eqb] in Hbody.
    { injection Hbody as <-. split; [discriminate | tauto]. }
    unfold has_0x_prefix.
    destruct (array_get publicInputs 0) as [| | | |s0]; cbn in Hbody;
      try discriminate.
    destruct (String.prefix "0x" s0) eqn:E0; cbn in Hbody.
    2:{ injection Hbody as <-. split; [discriminate |].
        intros (_ & _ & (s & [= <-] & Hs) & _). congruence. }
    destruct (array_get publicInputs 1) as [| | | |s1]; cbn in Hbody;
      try discriminate.
    destruct (String.prefix "0x" s1) eqn:E1; cbn in Hbody;
      injection Hbody as <-.
    + split; [| reflexivity]. intros _.
      split; [discriminate |]. split; [exact Hlen |]. split; eauto.
    + split; [discriminate |].
      intros (_ & _ & _ & (s & [= <-] & Hs)). congruence.
  - pose proof (verifyZKProof_body_pure _ _ _ _ _ Hbody) as ->.
    eexists _, _. rewrite (verifyZKProof_caught _ _ _ _ _ Hbody).
    split; [reflexivity |]. split; [reflexivity |].
    split; [discriminate |]. intros (Hp & Hlen & (s0 & H0 & Hs0) & (s1 & H1 & Hs1)).
    exfalso.
    rewrite (verifyZKProof_body_strings _ _ s0 s1 w H0 H1) in Hbody.
    discriminate Hbody.
Qed.

(** When the tag check accepts. *)
Lemma verifyTagAuth_accepts (tagUid : string)
    (challenge signature : Buffer) (w : world) :
  verifyTagAuth tagUid challenge signature w = (Return true, w)
  ↔ tagUid ≠ "" ∧ challenge ≠ [] ∧ length signature = 16%nat.
Proof.
  rewrite verifyTagAuth_value.
  destruct (String.eqb_spec tagUid ""); cbn.
  { split; [discriminate | tauto]. }
  destruct challenge as [|x challenge]; cbn.
  { split; [discriminate | tauto]. }
  destruct (Nat.eqb_spec (length signature) 16).
  - split; [| reflexivity]. intros _.
    split; [assumption |]. split; [discriminate | assumption].
  - split; [discriminate | tauto].
Qed.

(** X1. [verifyTagAuth] never throws, has no effect, and accepts exactly the
    calls with a non-empty [tagUid], a non-empty challenge and a signature
    of 16 bytes: the bytes of the challenge and of the signature play no
    part, so every 16-byte signature is accepted. *)
Theorem verifyTagAuth_true_iff (tagUid : string)
    (challenge signature : Buffer) (w : world) :
  ∃ b : bool,
    verifyTagAuth tagUid challenge signature w = (Return b, w)
    ∧ (b = true ↔
       tagUid ≠ "" ∧ challenge ≠ [] ∧ length signature = 16%nat)
    ∧ ∀ signature' : Buffer,
        length signature' = length signature →
        verifyTagAuth tagUid challenge signature' w = (Return b, w).
Proof.
  pose proof (verifyTagAuth_accepts tagUid challenge signature w) as Hacc.
  rewrite verifyTagAuth_value in Hacc |- *.
  eexists. split; [reflexivity |]. split.
  - rewrite <- Hacc. split; [intros ->; reflexivity | congruence].
  - intros signature' Hlen. rewrite verifyTagAuth_value, Hlen. reflexivity.
Qed.

(** X2. [verifyProof] declares a product authentic exactly when the proof
    buffer is non-empty, the first two public inputs are strings beginning
    with ["0x"], [tagUid] and the challenge are non-empty, the signature has
    16 bytes, and the first public input is one of the trusted roots. *)
Theorem verifyProof_authentic_iff (input : VerificationInput) (w : world) :
  ∃ (r : VerificationResult) (w' : world),
    verifyProof input w = (Return r, w')
    ∧ (authentic r = true ↔
       proof input ≠ []
       ∧ (2 ≤ length (publicInputs input))%nat
       ∧ has_0x_prefix (array_get (publicInputs input) 0)
       ∧ has_0x_prefix (array_get (publicInputs input) 1)
       ∧ tagUid input ≠ ""
       ∧ challenge input ≠ []
       ∧ length (tagSignature input) = 16%nat
       ∧ ∃ root, array_get (publicInputs input) 0 = JStr root
                 ∧ root ∈ VALID_ROOTS w).
Proof.
  destruct (verifyZKProof_value (proof input) (publicInputs input) w)
    as (pv & w1 & Hzk & Hroots & Hpv).
  pose proof (verifyTagAuth_accepts (tagUid input) (challenge input)
                (tagSignature input) w1) as Htv.
  rewrite verifyTagAuth_value in Htv.
  set (tv := (negb (String.eqb (tagUid input) "")
              && negb (length (challenge input) =? 0)%nat
              && (length (tagSignature input) =? 16)%nat)%bool) in Htv.
  assert (tv = true ↔ tagUid input ≠ "" ∧ challenge input ≠ []
                      ∧ length (tagSignature input) = 16%nat) as Htv'.
  { rewrite <- Htv. split; [intros ->; reflexivity | congruence]. }
  set (rv := match array_get (publicInputs input) 0 with
             | JStr s => bool_decide (s ∈ VALID_ROOTS w1)
             | _ => false
             end).
  assert (rv = true ↔ ∃ root, array_get (publicInputs input) 0 = JStr root
                              ∧ root ∈ VALID_ROOTS w) as Hrv.
  { subst rv. rewrite Hroots.
    destruct (array_get (publicInputs input) 0) as [| | | |root].
    5:{ rewrite bool_decide_eq_true. split.
        - intros Hin. exists root. auto.
        - intros (root' & [= <-] & Hin). exact Hin. }
    all: split; [discriminate | intros (root' & Hroot & _); discriminate]. }
  exists {| authentic := pv && tv && rv; proofValid := pv;
            tagAuthValid := tv; rootValid := rv |}, w1.
  split.
  { unfold verifyProof, bind. rewrite Hzk, verifyTagAuth_value.
    unfold verifyRoot, ret. reflexivity. }
  cbn [authentic]. rewrite !andb_true_iff, Hpv, Htv', Hrv. tauto.
Qed.

(** The [try] block of [verifyZKProof] throws exactly on the inputs
    described by [zk_faults]. *)
Lemma verifyZKProof_body_throws_iff (proof : Buffer)
    (publicInputs : list jsval) (w : world) :
  (∃ e w1, verifyZKProof_body proof publicInputs w = (Throw e, w1))
  ↔ zk_faults proof publicInputs.
Proof.
  unfold zk_faults, verifyZKProof_body, is_string, has_0x_prefix. unfold_js.
  destruct (Nat.ltb_spec (length publicInputs) 2) as [Hlen|Hlen].
  { split.
    - intros (e & w1 & H). destruct (length proof =? 0)%nat; discriminate.
    - intros (_ & ? & _). lia. }
  destruct proof as [|x proof]; cbn [length Nat.eqb].
  { split; [intros (e & w1 & H); discriminate | intros (H & _); congruence]. }
  assert (x :: proof ≠ []) as Hne by discriminate.
  destruct (array_get publicInputs 0) as [| | | |s0]; cbn.
  1-4: split; [intros _ | intros _; eauto];
       (split; [exact Hne |]); (split; [exact Hlen |]);
       left; intros (s & Hs); discriminate.
  destruct (String.prefix "0x" s0) eqn:E0; cbn.
  2:{ split; [intros (e & w1 & H); discriminate |].
      intros (_ & _ & [Hs | ((s & [= <-] & Hs) & _)]).
      - exfalso. apply Hs. eauto.
      - congruence. }
  destruct (array_get publicInputs 1) as [| | | |s1]; cbn.
  1-4: split; [intros _ | intros _; eauto];
       (split; [exact Hne |]); (split; [exact Hlen |]);
       right; (split; [eauto |]); intros (s & Hs); discriminate.
  split.
  - intros (e & w1 & H). destruct (String.prefix "0x" s1); discriminate.
  - intros (_ & _ & [Hs | (_ & Hs)]); exfalso; apply Hs; eauto.
Qed.



(** X3. [verifyZKProof] writes to the console exactly when [startsWith] is
    reached on an entry that is not a string: it then returns [false] after
    one [console.error] line; on every other input it changes nothing. A
    first entry that is a string without the prefix ends the check before
    the second entry is looked at. *)
Theorem verifyZKProof_logs_iff (proof : Buffer) (publicInputs : list jsval)
    (w : world) :
  (zk_faults proof publicInputs →
     ∃ e, verifyZKProof proof publicInputs w =
            (Return false,
             {| VALID_ROOTS := VALID_ROOTS w;
                console :=
                  (console w
                     ++ [ConsoleError "ZK proof verification error:" e])%list
             |}))
  ∧ (¬ zk_faults proof publicInputs →
       snd (verifyZKProof proof publicInputs w) = w).
Proof.
  split.
  - intros Hf. apply (verifyZKProof_body_throws_iff _ _ w) in Hf
      as (e & w1 & Hbody).
    pose proof (verifyZKProof_body_pure _ _ _ _ _ Hbody) as ->.
    exists e. apply verifyZKProof_caught. exact Hbody.
  - intros Hnf.
    destruct (verifyZKProof_body proof publicInputs w) as [[b|e] w1] eqn:Hbody.
    + pose proof (verifyZKProof_body_pure _ _ _ _ _ Hbody) as ->.
      rewrite (verifyZKProof_passed _ _ _ _ _ Hbody). reflexivity.
    + exfalso. apply Hnf. apply (verifyZKProof_body_throws_iff _ _ w). eauto.
Qed.

(** [verifyProof] returns a result on every input. *)
Lemma verifyProof_effects_aux (input : VerificationInput) (w : world) :
  ∃ (r : VerificationResult) (w' : world),
    verifyProof input w = (Return r, w').
Proof.
  destruct (verifyZKProof_returns (proof input) (publicInputs input) w)
    as (pv & w1 & Hzk & _).
  eexists _, w1. unfold verifyProof, bind. rewrite Hzk, verifyTagAuth_value.
  unfold verifyRoot, ret. reflexivity.
Qed.


(** X5. When the first public input is missing or is not a string (an empty
    [publicInputs] included), [verifyProof] still returns a result, with
    [rootValid], [proofValid] and [authentic] all false. *)
Theorem verifyProof_root_not_string (input : VerificationInput) (w : world) :
  ¬ is_string (array_get (publicInputs input) 0) →
  ∃ (tv : bool) (w' : world),
    verifyProof input w =
      (Return {| authentic := false; proofValid := false;
                 tagAuthValid := tv; rootValid := false |}, w').
Proof.
  intros Hroot.
  destruct (verifyZKProof_value (proof input) (publicInputs input) w)
    as (pv & w1 & Hzk & _ & Hpv).
  assert (pv = false) as ->.
  { destruct pv; [| reflexivity]. exfalso.
    destruct Hpv as [Hpv _].
    destruct (Hpv eq_refl) as (_ & _ & (s & Hs & _) & _).
    apply Hroot. exists s. exact Hs. }
  eexists _, w1.
  unfold verifyProof, bind. rewrite Hzk, verifyTagAuth_value.
  unfold verifyRoot, ret.
  destruct (array_get (publicInputs input) 0) as [| | | |s]; cbn;
    try reflexivity.
  exfalso. apply Hroot. exists s. reflexivity.
Qed.

(** X6. Public inputs after the first two are never looked at: dropping them
    changes neither the result nor the effects of [verifyProof]. *)
Theorem verifyProof_ignores_extra_inputs (input : VerificationInput)
    (a b : jsval) (rest : list jsval) (w : world) :
  publicInputs input = a :: b :: rest →
  verifyProof input w =
  verifyProof {| proof := proof input;
                 publicInputs := [a; b];
                 tagSignature := tagSignature input;
                 challenge := challenge input;
                 tagUid := tagUid input |} w.
Proof.
  intros Hpi. unfold verifyProof, bind. cbn [proof publicInputs tagSignature
    challenge tagUid]. rewrite Hpi.
  replace (verifyZKProof (proof input) (a :: b :: rest) w)
    with (verifyZKProof (proof input) [a; b] w); [reflexivity |].
  unfold verifyZKProof, try_catch, verifyZKProof_body.
  destruct (length (proof input) =? 0)%nat; reflexivity.
Qed.

(** X7. Enlarging the trusted-root set leaves [proofValid] and [tagAuthValid]
    as they are and can only turn [authentic] from false to true; so
    revoking a root never makes a product authentic. *)
Theorem verifyProof_roots_monotone (input : VerificationInput)
    (w1 w2 : world) (r1 r2 : VerificationResult) :
  VALID_ROOTS w1 ⊆ VALID_ROOTS w2 →
  fst (verifyProof input w1) = Return r1 →
  fst (verifyProof input w2) = Return r2 →
  proofValid r1 = proofValid r2
  ∧ tagAuthValid r1 = tagAuthValid r2
  ∧ (rootValid r1 = true → rootValid r2 = true)
  ∧ (authentic r1 = true → authentic r2 = true).
Proof.
  intros Hsub H1 H2.
  destruct (verifyZKProof_value (proof input) (publicInputs input) w1)
    as (pv1 & w1' & Hzk1 & Hroots1 & Hpv1).
  destruct (verifyZKProof_value (proof input) (publicInputs input) w2)
    as (pv2 & w2' & Hzk2 & Hroots2 & Hpv2).
  assert (pv1 = pv2) as <-.
  { destruct pv1, pv2; try reflexivity.
    - symmetry. apply Hpv2, Hpv1. reflexivity.
    - apply Hpv1, Hpv2. reflexivity. }
  unfold verifyProof, bind in H1, H2.
  rewrite Hzk1, verifyTagAuth_value in H1.
  rewrite Hzk2, verifyTagAuth_value in H2.
  unfold verifyRoot, ret in H1, H2. cbn in H1, H2.
  injection H1 as <-. injection H2 as <-. cbn.
  rewrite Hroots1, Hroots2.
  assert (match array_get (publicInputs input) 0 with
          | JStr s => bool_decide (s ∈ VALID_ROOTS w1)
          | _ => false
          end = true →
          match array_get (publicInputs input) 0 with
          | JStr s => bool_decide (s ∈ VALID_ROOTS w2)
          | _ => false
          end = true) as Hmono.
  { destruct (array_get (publicInputs input) 0); try discriminate.
    rewrite !bool_decide_eq_true. apply Hsub. }
  split; [reflexivity |]. split; [reflexivity |]. split; [exact Hmono |].
  rewrite !andb_true_iff. intros [Hl Hr]. split; [exact Hl | auto].
Qed.

(** * Further properties of the rate limiter *)

(** What the clean-up loop leaves of one client's entry. *)
Lemma cleanup_lookup (now : Z) (requests : gmap string Entry.t)
    (clientId : string) :
  cleanup now requests !! clientId =
    match requests !! clientId with
    | Some record =>
        if bool_decide (Entry.resetAt record < now) then None else Some record
    | None => None
    end.
Proof.
  destruct (requests !! clientId) as [record|] eqn:Hget.
  - destruct (bool_decide_reflect (Entry.resetAt record < now)) as [Hexp|Hlive].
    + apply cleanup_lookup_expired. intros record'. rewrite Hget.
      intros [= <-]. exact Hexp.
    + apply cleanup_lookup_Some. auto.
  - apply cleanup_lookup_expired. intros record'. rewrite Hget. discriminate.
Qed.

(** The map after a call: the caller's entry is the record the call wrote
    or kept, every other entry is what the clean-up left of it. *)
Lemma rateLimit_lookup_other (clientId other : string) (now : Z)
    (config : RateLimitConfig) (requests : gmap string Entry.t) :
  other ≠ clientId →
  snd (rateLimit clientId now config requests) !! other
  = cleanup now requests !! other.
Proof.
  intros Hne. unfold rateLimit.
  destruct (cleanup now requests !! clientId) as [record|]; cbn.
  - destruct (bool_decide (Entry.resetAt record < now)); cbn.
    { apply lookup_insert_ne. congruence. }
    destruct (bool_decide (Entry.count record >= maxRequests config)); cbn.
    + reflexivity.
    + apply lookup_insert_ne. congruence.
  - apply lookup_insert_ne. congruence.
Qed.

(** The three outcomes of a call, read off the caller's entry before it. *)
Lemma rateLimit_cases (clientId : string) (now : Z)
    (config : RateLimitConfig) (requests : gmap string Entry.t) :
  ((∀ record, requests !! clientId = Some record →
              Entry.resetAt record < now)
   ∧ rateLimit clientId now config requests =
       ({| success := true; remaining := maxRequests config - 1;
           resetAt := now + windowMs config |},
        <[clientId := Entry.mk 1 (now + windowMs config)]>
          (cleanup now requests)))
  ∨ (∃ record,
       requests !! clientId = Some record
       ∧ now ≤ Entry.resetAt record
       ∧ maxRequests config ≤ Entry.count record
       ∧ rateLimit clientId now config requests =
           ({| success := false; remaining := 0;
               resetAt := Entry.resetAt record |},
            cleanup now requests))
  ∨ (∃ record,
       requests !! clientId = Some record
       ∧ now ≤ Entry.resetAt record
       ∧ Entry.count record < maxRequests config
       ∧ rateLimit clientId now config requests =
           ({| success := true;
               remaining := maxRequests config - (Entry.count record + 1);
               resetAt := Entry.resetAt record |},
            <[clientId := Entry.mk (Entry.count record + 1)
                            (Entry.resetAt record)]>
              (cleanup now requests))).
Proof.
  destruct (requests !! clientId) as [record|] eqn:Hget.
  - destruct (Z.lt_ge_cases (Entry.resetAt record) now) as [Hexp|Hlive].
    + left. split; [intros r [= <-]; exact Hexp |].
      apply rateLimit_new_window. intros r. rewrite Hget.
      intros [= <-]. exact Hexp.
    + right.
      rewrite (rateLimit_in_window _ _ _ _ _ Hget Hlive).
      destruct (bool_decide_reflect
                  (Entry.count record >= maxRequests config)) as [Hfull|Hroom].
      * left. exists record. repeat split; [assumption | lia].
      * right. exists record. repeat split; [assumption | lia].
  - left. split; [discriminate |].
    apply rateLimit_new_window. intros r. rewrite Hget. discriminate.
Qed.

(** X8. A call for one client does nothing to another client's entry beyond the
    clean-up: the entry is dropped when it has expired and is otherwise left
    exactly as it was. *)
Theorem rateLimit_other_clients (clientId other : string) (now : Z)
    (config : RateLimitConfig) (requests : gmap string Entry.t) :
  other ≠ clientId →
  snd (rateLimit clientId now config requests) !! other =
    match requests !! other with
    | Some record =>
        if bool_decide (Entry.resetAt record < now) then None else Some record
    | None => None
    end.
Proof.
  intros Hne. rewrite (rateLimit_lookup_other _ _ _ _ _ Hne).
  apply cleanup_lookup.
Qed.

(** Every entry of the map after a call is live. *)
Lemma rateLimit_entries_live (clientId : string) (now : Z)
    (config : RateLimitConfig) (requests : gmap string Entry.t)
    (key : string) (record : Entry.t) :
  0 ≤ windowMs config →
  snd (rateLimit clientId now config requests) !! key = Some record →
  now ≤ Entry.resetAt record.
Proof.
  intros Hwin Hget.
  destruct (decide (key = clientId)) as [-> | Hne].
  - destruct (rateLimit_cases clientId now config requests)
      as [[_ Heq] | [(r & Hr & Hlive & _ & Heq) | (r & Hr & Hlive & _ & Heq)]];
      rewrite Heq in Hget; cbn in Hget.
    + rewrite lookup_insert_eq in Hget. injection Hget as <-. cbn. lia.
    + apply cleanup_lookup_Some in Hget as [_ Hkeep]. lia.
    + rewrite lookup_insert_eq in Hget. injection Hget as <-. cbn. lia.
  - rewrite (rateLimit_lookup_other _ _ _ _ _ Hne) in Hget.
    apply cleanup_lookup_Some in Hget as [_ Hkeep]. lia.
Qed.

(** X9. With a window length that is not negative, no expired entry is left in
    the map after a call, whoever the caller was: the map never holds more
    than the clients of the current windows. *)
Theorem rateLimit_leaves_no_expired (clientId : string) (now : Z)
    (config : RateLimitConfig) (requests : gmap string Entry.t) :
  0 ≤ windowMs config →
  ∀ key record,
    snd (rateLimit clientId now config requests) !! key = Some record →
    now ≤ Entry.resetAt record
    ∧ (key = clientId ∨ requests !! key = Some record).
Proof.
  intros Hwin key record Hget.
  split; [exact (rateLimit_entries_live _ _ _ _ _ _ Hwin Hget) |].
  destruct (decide (key = clientId)) as [-> | Hne]; [left; reflexivity |].
  right. rewrite (rateLimit_lookup_other _ _ _ _ _ Hne) in Hget.
  apply cleanup_lookup_Some in Hget as [Hget _]. exact Hget.
Qed.

(** X10. Counts stay between 1 and the limit: if every stored count is, so is
    every count stored after a call (for a limit of at least 1). *)
Theorem rateLimit_count_bounds (clientId : string) (now : Z)
    (config : RateLimitConfig) (requests : gmap string Entry.t) :
  1 ≤ maxRequests config →
  (∀ key record, requests !! key = Some record →
                 1 ≤ Entry.count record ≤ maxRequests config) →
  ∀ key record,
    snd (rateLimit clientId now config requests) !! key = Some record →
    1 ≤ Entry.count record ≤ maxRequests config.
Proof.
  intros Hmax Hinv key record Hget.
  destruct (decide (key = clientId)) as [-> | Hne].
  - destruct (rateLimit_cases clientId now config requests)
      as [[_ Heq] | [(r & Hr & _ & _ & Heq) | (r & Hr & _ & Hroom & Heq)]];
      rewrite Heq in Hget; cbn in Hget.
    + rewrite lookup_insert_eq in Hget. injection Hget as <-. cbn. lia.
    + apply cleanup_lookup_Some in Hget as [Hget _]. eauto.
    + rewrite lookup_insert_eq in Hget. injection Hget as <-. cbn.
      specialize (Hinv _ _ Hr). lia.
  - rewrite (rateLimit_lookup_other _ _ _ _ _ Hne) in Hget.
    apply cleanup_lookup_Some in Hget as [Hget _]. eauto.
Qed.

(** X11. A call is rejected only for a caller whose record is still live
    ([now <= resetAt]) with its count at the limit; the rejection reports
    [remaining = 0] and that record's [resetAt], and changes nothing in the
    map but the clean-up. *)
Theorem rateLimit_rejected (clientId : string) (now : Z)
    (config : RateLimitConfig) (requests : gmap string Entry.t) :
  success (fst (rateLimit clientId now config requests)) = false →
  ∃ record,
    requests !! clientId = Some record
    ∧ now ≤ Entry.resetAt record
    ∧ maxRequests config ≤ Entry.count record
    ∧ rateLimit clientId now config requests =
        ({| success := false; remaining := 0;
            resetAt := Entry.resetAt record |},
         cleanup now requests)
    ∧ snd (rateLimit clientId now config requests) !! clientId = Some record.
Proof.
  intros Hrej.
  destruct (rateLimit_cases clientId now config requests)
    as [[_ Heq] | [(r & Hr & Hlive & Hfull & Heq) | (r & _ & _ & _ & Heq)]];
    rewrite Heq in Hrej; try discriminate.
  exists r. rewrite Heq. repeat split; try assumption.
  cbn. apply cleanup_lookup_Some. split; [exact Hr | lia].
Qed.

(** X12. After every call the caller has a record in the map, and the result
    agrees with it: the same [resetAt], and [remaining] is the limit minus
    the stored count when the call was allowed, 0 when it was rejected. *)
Theorem rateLimit_result_matches_record (clientId : string) (now : Z)
    (config : RateLimitConfig) (requests : gmap string Entry.t) :
  ∃ record,
    snd (rateLimit clientId now config requests) !! clientId = Some record
    ∧ resetAt (fst (rateLimit clientId now config requests))
      = Entry.resetAt record
    ∧ remaining (fst (rateLimit clientId now config requests))
      = if success (fst (rateLimit clientId now config requests))
        then maxRequests config - Entry.count record
        else 0.
Proof.
  destruct (rateLimit_cases clientId now config requests)
    as [[_ Heq] | [(r & Hr & Hlive & _ & Heq) | (r & _ & _ & _ & Heq)]];
    rewrite Heq; cbn.
  - eexists. split; [apply lookup_insert_eq |]. cbn. auto.
  - exists r. split; [| auto].
    apply cleanup_lookup_Some. split; [exact Hr | lia].
  - eexists. split; [apply lookup_insert_eq |]. cbn. auto.
Qed.

(** The number of allowed calls in a run that stays inside the window of
    the caller's record. *)
Lemma rateLimit_run_allowed_in_window (clientId : string)
    (config : RateLimitConfig) (R : Z) (times : list Z) :
  ∀ (k : Z) (requests : gmap string Entry.t),
    requests !! clientId = Some (Entry.mk k R) →
    k ≤ maxRequests config →
    Forall (fun t => t ≤ R) times →
    Z.of_nat (length (filter (fun r => success r = true)
                        (fst (rateLimit_run clientId config times requests))))
    = Z.min (Z.of_nat (length times)) (maxRequests config - k).
Proof.
  induction times as [|now times IH]; intros k requests Hget Hk Hall.
  - cbn. lia.
  - apply Forall_cons in Hall as [Hnow Hall].
    cbn [rateLimit_run].
    rewrite (rateLimit_in_window _ _ _ _ _ Hget Hnow).
    cbn [Entry.count Entry.resetAt].
    destruct (bool_decide_reflect (k >= maxRequests config)) as [Hfull|Hroom].
    + assert (cleanup now requests !! clientId = Some (Entry.mk k R)) as Hget'.
      { apply cleanup_lookup_Some. split; [exact Hget | cbn; lia]. }
      specialize (IH k _ Hget' Hk Hall).
      destruct (rateLimit_run clientId config times (cleanup now requests))
        as [results requests'].
      cbn [fst] in IH |- *.
      rewrite filter_cons_False by (cbn; discriminate).
      rewrite IH. cbn [length]. lia.
    + set (requests1 := <[clientId := Entry.mk (k + 1) R]>
                          (cleanup now requests)).
      assert (requests1 !! clientId = Some (Entry.mk (k + 1) R)) as Hget'
        by apply lookup_insert_eq.
      specialize (IH (k + 1) _ Hget' ltac:(lia) Hall).
      destruct (rateLimit_run clientId config times requests1)
        as [results requests'].
      cbn [fst] in IH |- *.
      rewrite filter_cons_True by reflexivity.
      cbn [length]. lia.
Qed.

(** X13. The limit holds per window for every configuration with a limit of at
    least 1: when a client's first request opens a window at [t0] and [n]
    more requests follow up to its [resetAt], exactly
    [min (n + 1) maxRequests] of the [n + 1] requests are allowed. *)
Theorem rateLimit_allowed_per_window (clientId : string)
    (config : RateLimitConfig) (requests : gmap string Entry.t) (t0 : Z)
    (times : list Z) :
  (∀ record, requests !! clientId = Some record →
             Entry.resetAt record < t0) →
  1 ≤ maxRequests config →
  Forall (fun t => t ≤ t0 + windowMs config) times →
  Z.of_nat (length (filter (fun r => success r = true)
                      (fst (rateLimit_run clientId config (t0 :: times)
                              requests))))
  = Z.min (Z.of_nat (length times) + 1) (maxRequests config).
Proof.
  intros Hfresh Hmax Hall. cbn [rateLimit_run].
  rewrite (rateLimit_new_window _ _ _ _ Hfresh).
  set (requests1 := <[clientId := Entry.mk 1 (t0 + windowMs config)]>
                      (cleanup t0 requests)).
  assert (requests1 !! clientId = Some (Entry.mk 1 (t0 + windowMs config)))
    as Hget by apply lookup_insert_eq.
  pose proof (rateLimit_run_allowed_in_window clientId config
                (t0 + windowMs config) times 1 requests1 Hget Hmax Hall)
    as Hrun.
  destruct (rateLimit_run clientId config times requests1)
    as [results requests'].
  cbn [fst] in Hrun |- *.
  rewrite filter_cons_True by reflexivity.
  cbn [length]. lia.
Qed.

(** X14. A limit of 0 (or less) does not close the door: the request that opens
    a window is allowed whatever the limit, reporting a negative
    [remaining]; the requests that follow in that window are rejected. *)
Theorem rateLimit_nonpositive_limit (clientId : string) (now : Z)
    (config : RateLimitConfig) (requests : gmap string Entry.t) (later : Z) :
  maxRequests config ≤ 0 →
  requests !! clientId = None →
  later ≤ now + windowMs config →
  let first := rateLimit clientId now config requests in
  success (fst first) = true
  ∧ remaining (fst first) < 0
  ∧ success (fst (rateLimit clientId later config (snd first))) = false.
Proof.
  intros Hmax Hnone Hlater. cbn zeta.
  rewrite rateLimit_new_window
    by (intros record; rewrite Hnone; discriminate).
  cbn [fst snd success remaining].
  split; [reflexivity |]. split; [lia |].
  rewrite (rateLimit_in_window _ _ _ _ (Entry.mk 1 (now + windowMs config)))
    by (cbn; first [apply lookup_insert_eq | lia]).
  cbn [Entry.count]. rewrite bool_decide_eq_true_2 by lia. reflexivity.
Qed.

(** X15. A rejected client stays rejected for the rest of its window: a retry at
    any time up to and including the reported [resetAt] is rejected
    again. *)
Theorem rateLimit_retry_before_reset (clientId : string) (now : Z)
    (config : RateLimitConfig) (requests : gmap string Entry.t) (retry : Z) :
  success (fst (rateLimit clientId now config requests)) = false →
  retry ≤ resetAt (fst (rateLimit clientId now config requests)) →
  success (fst (rateLimit clientId retry config
                  (snd (rateLimit clientId now config requests)))) = false.
Proof.
  intros Hrej Hretry.
  destruct (rateLimit_cases clientId now config requests)
    as [[_ Heq] | [(r & Hr & Hlive & Hfull & Heq) | (r & _ & _ & _ & Heq)]];
    rewrite Heq in Hrej, Hretry |- *; try discriminate.
  cbn [fst snd resetAt] in *.
  assert (cleanup now requests !! clientId = Some r) as Hget.
  { apply cleanup_lookup_Some. split; [exact Hr | lia]. }
  rewrite (rateLimit_in_window _ _ _ _ _ Hget Hretry).
  rewrite bool_decide_eq_true_2 by lia. reflexivity.
Qed.

(** The result of a call, and the record it leaves for the caller, depend
    on the map only through the caller's live entry. *)
Lemma rateLimit_depends_on_entry (clientId : string) (now : Z)
    (config : RateLimitConfig) (requests requests' : gmap string Entry.t) :
  cleanup now requests !! clientId = cleanup now requests' !! clientId →
  fst (rateLimit clientId now config requests)
  = fst (rateLimit clientId now config requests')
  ∧ snd (rateLimit clientId now config requests) !! clientId
    = snd (rateLimit clientId now config requests') !! clientId.
Proof.
  intros Hsame. unfold rateLimit. cbn zeta. rewrite <- Hsame.
  destruct (cleanup now requests !! clientId) as [record|] eqn:Hget; cbn.
  - destruct (bool_decide (Entry.resetAt record < now)); cbn.
    { rewrite !lookup_insert_eq. auto. }
    destruct (bool_decide (Entry.count record >= maxRequests config)); cbn.
    + split; [reflexivity | congruence].
    + rewrite !lookup_insert_eq. auto.
  - rewrite !lookup_insert_eq. auto.
Qed.

(** A second clean-up at the same time finds nothing to remove after a
    call. *)
Lemma cleanup_after_rateLimit (clientId key : string) (now : Z)
    (config : RateLimitConfig) (requests : gmap string Entry.t) :
  0 ≤ windowMs config →
  cleanup now (snd (rateLimit clientId now config requests)) !! key
  = snd (rateLimit clientId now config requests) !! key.
Proof.
  intros Hwin. rewrite cleanup_lookup.
  destruct (snd (rateLimit clientId now config requests) !! key)
    as [record|] eqn:Hget; [| reflexivity].
  pose proof (rateLimit_entries_live _ _ _ _ _ _ Hwin Hget).
  rewrite bool_decide_eq_false_2 by lia. reflexivity.
Qed.

(** X16. Requests of two different clients that read the same clock value can
    be served in either order: both get the same results and the map ends
    up the same. *)
Theorem rateLimit_commute (c1 c2 : string) (now : Z)
    (config : RateLimitConfig) (requests : gmap string Entry.t) :
  c1 ≠ c2 →
  0 ≤ windowMs config →
  let a1 := rateLimit c1 now config requests in
  let a2 := rateLimit c2 now config (snd a1) in
  let b2 := rateLimit c2 now config requests in
  let b1 := rateLimit c1 now config (snd b2) in
  fst a1 = fst b1 ∧ fst a2 = fst b2 ∧ snd a2 = snd b1.
Proof.
  intros Hne Hwin a1 a2 b2 b1.
  assert (cleanup now (snd a1) !! c2 = cleanup now requests !! c2) as H2.
  { subst a1. rewrite cleanup_after_rateLimit by exact Hwin.
    apply rateLimit_lookup_other. congruence. }
  assert (cleanup now (snd b2) !! c1 = cleanup now requests !! c1) as H1.
  { subst b2. rewrite cleanup_after_rateLimit by exact Hwin.
    apply rateLimit_lookup_other. congruence. }
  destruct (rateLimit_depends_on_entry c2 now config _ _ H2) as [Hr2 Hm2].
  destruct (rateLimit_depends_on_entry c1 now config _ _ H1) as [Hr1 Hm1].
  split; [symmetry; exact Hr1 |]. split; [exact Hr2 |].
  apply map_eq. intros key.
  destruct (decide (key = c2)) as [-> | Hk2].
  { subst a2 b1. rewrite Hm2.
    rewrite (rateLimit_lookup_other c1 c2) by congruence.
    subst b2. rewrite cleanup_after_rateLimit by exact Hwin. reflexivity. }
  destruct (decide (key = c1)) as [-> | Hk1].
  { subst a2 b1. rewrite Hm1.
    rewrite (rateLimit_lookup_other c2 c1) by congruence.
    subst a1. rewrite cleanup_after_rateLimit by exact Hwin. reflexivity. }
  subst a2 b1.
  rewrite (rateLimit_lookup_other c2 key) by exact Hk2.
  rewrite (rateLimit_lookup_other c1 key) by exact Hk1.
  subst a1 b2. rewrite !cleanup_after_rateLimit by exact Hwin.
  rewrite !rateLimit_lookup_other by assumption. reflexivity.
Qed.

(** * Properties of the client identity and of the response headers *)

Lemma append_cons (c : ascii) (s t : string) :
  String.append (String c s) t = String c (String.append s t).
Proof. reflexivity. Qed.

Lemma append_empty (t : string) : String.append EmptyString t = t.
Proof. reflexivity. Qed.

Lemma split_comma_first_app (first rest : string) :
  ¬ In ","%char (list_ascii_of_string first) →
  split_comma_first (String.append first (String "," rest)) = first.
Proof.
  induction first as [|c first IH]; intros Hno.
  - reflexivity.
  - rewrite append_cons. cbn in Hno |- *.
    destruct (Ascii.eqb_spec c ","%char) as [-> | Hc].
    + exfalso. apply Hno. left. reflexivity.
    + f_equal. apply IH. intros Hin. apply Hno. right. exact Hin.
Qed.

Lemma split_comma_first_no_comma (s : string) :
  ¬ In ","%char (list_ascii_of_string (split_comma_first s)).
Proof.
  induction s as [|c s IH]; cbn; [tauto |].
  destruct (Ascii.eqb_spec c ","%char) as [-> | Hc]; cbn; [tauto |].
  intros [Heq | Hin]; [congruence | exact (IH Hin)].
Qed.

Lemma split_comma_first_id (s : string) :
  ¬ In ","%char (list_ascii_of_string s) → split_comma_first s = s.
Proof.
  induction s as [|c s IH]; intros Hno; cbn; [reflexivity |].
  cbn in Hno. destruct (Ascii.eqb_spec c ","%char) as [-> | Hc].
  - exfalso. apply Hno. left. reflexivity.
  - f_equal. apply IH. tauto.
Qed.

Lemma trimStart_In (s : string) (c : ascii) :
  In c (list_ascii_of_string (trimStart s)) → In c (list_ascii_of_string s).
Proof.
  induction s as [|a s IH]; cbn; [tauto |].
  destruct (is_whitespace a); cbn; tauto.
Qed.

Lemma trimEnd_In (s : string) (c : ascii) :
  In c (list_ascii_of_string (trimEnd s)) → In c (list_ascii_of_string s).
Proof.
  induction s as [|a s IH]; cbn; [tauto |].
  destruct (trimEnd s) as [|b kept] eqn:Hkept.
  - destruct (is_whitespace a); cbn; tauto.
  - cbn in *. tauto.
Qed.

Lemma trimStart_head (s : string) (c : ascii) (rest : string) :
  trimStart s = String c rest → is_whitespace c = false.
Proof.
  induction s as [|a s IH]; cbn; [discriminate |].
  destruct (is_whitespace a) eqn:Ha; [exact IH |].
  intros [= <- _]. exact Ha.
Qed.

Lemma trimEnd_head (s : string) (c : ascii) (rest : string) :
  trimEnd s = String c rest → ∃ rest', s = String c rest'.
Proof.
  destruct s as [|a s]; cbn; [discriminate |].
  destruct (trimEnd s) as [|b kept].
  - destruct (is_whitespace a); [discriminate |]. intros [= <- _]. eauto.
  - intros [= <- _]. eauto.
Qed.

Lemma trimEnd_last (s : string) :
  ∀ (pre : string) (c : ascii),
    trimEnd s = String.append pre (String c EmptyString) →
    is_whitespace c = false.
Proof.
  induction s as [|a s IH]; intros pre c; cbn.
  - destruct pre; rewrite ?append_cons, ?append_empty; discriminate.
  - destruct (trimEnd s) as [|b kept] eqn:Hkept.
    + destruct (is_whitespace a) eqn:Ha.
      * destruct pre; rewrite ?append_cons, ?append_empty; discriminate.
      * destruct pre as [|p pre]; rewrite ?append_cons, ?append_empty.
        -- intros [= <-]. exact Ha.
        -- intros [= _ H].
           destruct pre; rewrite ?append_cons, ?append_empty in H;
             discriminate.
    + destruct pre as [|p pre]; rewrite ?append_cons, ?append_empty.
      * discriminate.
      * intros [= _ H]. exact (IH pre c H).
Qed.

Lemma trimStart_blank (s : string) :
  Forall (fun c => is_whitespace c = true) (list_ascii_of_string s) →
  trimStart s = EmptyString.
Proof.
  induction s as [|a s IH]; cbn; [reflexivity |].
  intros Hall. apply Forall_cons in Hall as [-> Hall]. exact (IH Hall).
Qed.

(** X17. When [x-forwarded-for] is a string, the client identity contains no
    comma and neither begins nor ends with a white-space character. *)
Theorem getClientId_forwarded_clean (headers : gmap string header_value)
    (forwarded : string) :
  headers !! "x-forwarded-for" = Some (HeaderString forwarded) →
  let id := getClientId headers in
  ¬ In ","%char (list_ascii_of_string id)
  ∧ (∀ c rest, id = String c rest → is_whitespace c = false)
  ∧ (∀ pre c, id = String.append pre (String c EmptyString) →
              is_whitespace c = false).
Proof.
  intros Hfwd id. subst id. unfold getClientId. rewrite Hfwd. unfold trim.
  split; [| split].
  - intros Hin. apply trimEnd_In, trimStart_In in Hin.
    exact (split_comma_first_no_comma _ Hin).
  - intros c rest Hid. apply trimEnd_head in Hid as [rest' Hid].
    exact (trimStart_head _ _ _ Hid).
  - intros pre c Hid. exact (trimEnd_last _ _ _ Hid).
Qed.

(** X18. Only the first item of [x-forwarded-for] counts: whatever follows the
    first comma, and whatever [x-real-ip] says, the client identity is the
    first item with the white space around it removed. *)
Theorem getClientId_first_item (headers : gmap string header_value)
    (first rest : string) :
  ¬ In ","%char (list_ascii_of_string first) →
  headers !! "x-forwarded-for"
  = Some (HeaderString (String.append first (String "," rest))) →
  getClientId headers = trim first
  ∧ getClientId {[ "x-forwarded-for" := HeaderString first ]} = trim first.
Proof.
  intros Hno Hfwd. unfold getClientId. rewrite Hfwd.
  rewrite lookup_singleton_eq.
  rewrite (split_comma_first_app _ _ Hno), (split_comma_first_id _ Hno).
  auto.
Qed.

(** X19. An [x-forwarded-for] header whose first item is blank (the header is
    empty, or white space only, or has only white space before its first
    comma) gives the empty client identity: neither [x-real-ip] nor
    ["unknown"] is used, and all such requests share one bucket. *)
Theorem getClientId_blank_forwarded (headers : gmap string header_value)
    (blank rest : string) :
  Forall (fun c => is_whitespace c = true) (list_ascii_of_string blank) →
  headers !! "x-forwarded-for" = Some (HeaderString blank)
  ∨ headers !! "x-forwarded-for"
    = Some (HeaderString (String.append blank (String "," rest))) →
  getClientId headers = "".
Proof.
  intros Hblank Hfwd.
  assert (¬ In ","%char (list_ascii_of_string blank)) as Hno.
  { intros Hin. rewrite Forall_forall in Hblank.
    apply list_elem_of_In in Hin. apply Hblank in Hin. discriminate Hin. }
  unfold getClientId.
  destruct Hfwd as [-> | ->].
  - rewrite (split_comma_first_id _ Hno). unfold trim.
    rewrite (trimStart_blank _ Hblank). reflexivity.
  - rewrite (split_comma_first_app _ _ Hno). unfold trim.
    rewrite (trimStart_blank _ Hblank). reflexivity.
Qed.

(** X20. [addRateLimitHeaders] sets three headers and leaves every other header
    as it was. The limit it announces is the default 100 whatever
    configuration produced [result], and the reset time is [resetAt] in
    whole seconds, rounded down. *)
Theorem addRateLimitHeaders_lookup (headers : gmap string string)
    (result : RateLimitResult) :
  let headers' := addRateLimitHeaders headers result in
  headers' !! "X-RateLimit-Limit" = Some "100"
  ∧ headers' !! "X-RateLimit-Remaining"
    = Some (number_to_string (remaining result))
  ∧ (∃ seconds,
       headers' !! "X-RateLimit-Reset" = Some (number_to_string seconds)
       ∧ 1000 * seconds ≤ resetAt result < 1000 * seconds + 1000)
  ∧ ∀ name, name ≠ "X-RateLimit-Limit" →
            name ≠ "X-RateLimit-Remaining" →
            name ≠ "X-RateLimit-Reset" →
            headers' !! name = headers !! name.
Proof.
  cbn zeta. unfold addRateLimitHeaders. repeat split.
  - rewrite !lookup_insert_ne by discriminate.
    rewrite lookup_insert_eq. reflexivity.
  - rewrite lookup_insert_ne by discriminate.
    rewrite lookup_insert_eq. reflexivity.
  - exists (resetAt result / 1000). rewrite lookup_insert_eq.
    split; [reflexivity |].
    pose proof (Z.mul_div_le (resetAt result) 1000).
    pose proof (Z.mul_succ_div_gt (resetAt result) 1000). lia.
  - intros name H1 H2 H3. rewrite !lookup_insert_ne by congruence.
    reflexivity.
Qed.

(** X21. The second announced in [X-RateLimit-Reset] is too early: a rejected
    client that retries at the very start of that second is rejected
    again. *)
Theorem retry_at_announced_reset (clientId : string) (now : Z)
    (config : RateLimitConfig) (requests : gmap string Entry.t)
    (headers : gmap string string) :
  success (fst (rateLimit clientId now config requests)) = false →
  ∃ seconds,
    addRateLimitHeaders headers (fst (rateLimit clientId now config requests))
      !! "X-RateLimit-Reset" = Some (number_to_string seconds)
    ∧ success (fst (rateLimit clientId (1000 * seconds) config
                      (snd (rateLimit clientId now config requests))))
      = false.
Proof.
  intros Hrej.
  destruct (rateLimit_cases clientId now config requests)
    as [[_ Heq] | [(r & Hr & Hlive & Hfull & Heq) | (r & _ & _ & _ & Heq)]];
    rewrite Heq in Hrej |- *; try discriminate.
  cbn [fst snd]. exists (Entry.resetAt r / 1000). split.
  - unfold addRateLimitHeaders. rewrite lookup_insert_eq. reflexivity.
  - assert (cleanup now requests !! clientId = Some r) as Hget.
    { apply cleanup_lookup_Some. split; [exact Hr | lia]. }
    pose proof (Z.mul_div_le (Entry.resetAt r) 1000) as Hfloor.
    rewrite (rateLimit_in_window _ _ _ _ _ Hget) by lia.
    rewrite bool_decide_eq_true_2 by lia. reflexivity.
Qed.

(** * Properties of the verification endpoint *)

(** An authentic verdict names a trusted root, and the roots are the same
    after the call. *)
Lemma verifyProof_authentic_root (input : VerificationInput) (w w' : world)
    (r : VerificationResult) :
  verifyProof input w = (Return r, w') →
  VALID_ROOTS w' = VALID_ROOTS w
  ∧ (authentic r = true →
     ∃ root, array_get (publicInputs input) 0 = JStr root
             ∧ root ∈ VALID_ROOTS w).
Proof.
  destruct (verifyZKProof_returns (proof input) (publicInputs input) w)
    as (pv & w1 & Hzk & Hroots & _).
  unfold verifyProof, bind. rewrite Hzk, verifyTagAuth_value.
  unfold verifyRoot, ret. intros [= <- <-]. split; [exact Hroots |].
  cbn [authentic]. rewrite !andb_true_iff. intros [_ Hr].
  destruct (array_get (publicInputs input) 0) as [| | | |root];
    try discriminate.
  exists root. split; [reflexivity |].
  apply bool_decide_eq_true in Hr. rewrite <- Hroots. exact Hr.
Qed.

Lemma truthy_false_iff (value : body_value) :
  truthy value = false ↔ falsy value.
Proof.
  unfold falsy. destruct value as [| |b|n|s|items|entries]; cbn.
  - tauto.
  - tauto.
  - destruct b; split; try discriminate; try tauto.
    intros [H | [H | [H | [H | H]]]]; discriminate H.
  - destruct (Z.eqb_spec n 0) as [-> | Hn]; cbn.
    + tauto.
    + split; [discriminate |].
      intros [H | [H | [H | [H | H]]]]; try discriminate H.
      injection H as ->. contradiction.
  - destruct (String.eqb_spec s "") as [-> | Hs]; cbn.
    + tauto.
    + split; [discriminate |].
      intros [H | [H | [H | [H | H]]]]; try discriminate H.
      injection H as ->. contradiction.
  - split; [discriminate |].
    intros [H | [H | [H | [H | H]]]]; discriminate H.
  - split; [discriminate |].
    intros [H | [H | [H | [H | H]]]]; discriminate H.
Qed.

(** [Buffer.from] has no effect; it returns for the values of
    [buffer_like] and throws for the others. *)
Lemma Buffer_from_cases (node : engine) (value : body_value) (w : world) :
  (buffer_like value ∧ ∃ b, Buffer_from node value w = (Return b, w))
  ∨ (¬ buffer_like value ∧ ∃ e, Buffer_from node value w = (Throw e, w)).
Proof.
  unfold buffer_like.
  destruct value as [| |b|n|s|items|[entries|]]; cbn.
  5: left; split; [left | ]; eauto.
  5: left; split; [right; left | ]; eauto.
  5: left; split; [right; right | ]; eauto.
  all: right; split; [| eauto];
    intros [(s' & H) | [(s' & H) | (s' & H)]]; discriminate H.
Qed.

Lemma iterate_cases (node : engine) (value : body_value) (w : world) :
  (iterable value ∧ ∃ items, iterate node value w = (Return items, w))
  ∨ (¬ iterable value ∧ ∃ e, iterate node value w = (Throw e, w)).
Proof.
  unfold iterable.
  destruct value as [| |b|n|s|items|entries]; cbn.
  5: left; split; [right | ]; eauto.
  5: left; split; [left | ]; eauto.
  all: right; split; [| eauto];
    intros [(s' & H) | (s' & H)]; discriminate H.
Qed.

(** The handler on a POST request: the rate limiter first, the [try] block
    only for an admitted request. *)
Lemma handler_post (node : engine) (req : VercelRequest) (now : Z)
    (timestamp : string) (requests : gmap string Entry.t) (w : world) :
  method req = Some "POST" →
  handler node req now timestamp requests w =
    let limited :=
      rateLimit (getClientId (headers req)) now DEFAULT_CONFIG requests in
    if success (fst limited) then
      match try_catch (handler_body node req timestamp)
              (fun error =>
                 (do console_error "Verification error:" error in
                  ret (failure 500 timestamp "Internal server error"))%js) w
      with
      | (Return response, w') => (Return (response, snd limited), w')
      | (Throw e, w') => (Throw e, w')
      end
    else
      (Return (failure 429 timestamp
                 "Too many requests. Please try again later.",
               snd limited), w).
Proof.
  intros Hpost. unfold handler. rewrite Hpost.
  rewrite bool_decide_eq_false_2 by discriminate.
  rewrite bool_decide_eq_true_2 by reflexivity. cbn [negb]. cbn zeta.
  destruct (rateLimit (getClientId (headers req)) now DEFAULT_CONFIG requests)
    as [result requests'].
  cbn [fst snd]. destruct (success result); reflexivity.
Qed.

(** The four ways the guarded part of the handler ends. *)
Lemma handler_body_caught (node : engine) (req : VercelRequest)
    (timestamp : string) (w : world) :
  let guarded :=
    try_catch (handler_body node req timestamp)
      (fun error =>
         (do console_error "Verification error:" error in
          ret (failure 500 timestamp "Internal server error"))%js) w in
  (body req = None
   ∧ ∃ e, guarded =
            (Return (failure 500 timestamp "Internal server error"),
             logged w e))
  ∨ (∃ b, body req = Some b
          ∧ ¬ all_present b
          ∧ guarded =
              (Return (failure 400 timestamp "Missing required fields"), w))
  ∨ (∃ b e, body req = Some b
            ∧ all_present b
            ∧ (¬ buffer_like (VerifyRequest.proof b)
               ∨ ¬ buffer_like (VerifyRequest.tagSignature b)
               ∨ ¬ buffer_like (VerifyRequest.challenge b)
               ∨ ¬ iterable (VerifyRequest.publicInputs b))
            ∧ guarded =
                (Return (failure 500 timestamp "Internal server error"),
                 logged w e))
  ∨ (∃ b p sg ch items r w',
       body req = Some b
       ∧ all_present b
       ∧ Buffer_from node (VerifyRequest.proof b) w = (Return p, w)
       ∧ Buffer_from node (VerifyRequest.tagSignature b) w = (Return sg, w)
       ∧ Buffer_from node (VerifyRequest.challenge b) w = (Return ch, w)
       ∧ iterate node (VerifyRequest.publicInputs b) w = (Return items, w)
       ∧ verifyProof {| proof := p;
                        publicInputs := items;
                        tagSignature := sg;
                        challenge := ch;
                        tagUid := tagUid_text (VerifyRequest.tagUid b) |} w
         = (Return r, w')
       ∧ guarded = (Return (verified timestamp r), w')).
Proof.
  cbn zeta. unfold try_catch, handler_body, all_present.
  destruct (body req) as [b|] eqn:Hbody.
  2:{ left. split; [reflexivity |]. eexists. reflexivity. }
  right.
  destruct (truthy (VerifyRequest.proof b)) eqn:Hp; cbn [negb orb].
  2:{ left. exists b. split; [reflexivity |]. split; [| reflexivity].
      intros (H & _). congruence. }
  destruct (truthy (VerifyRequest.publicInputs b)) eqn:Hpi; cbn [negb orb].
  2:{ left. exists b. split; [reflexivity |]. split; [| reflexivity].
      intros (_ & H & _). congruence. }
  destruct (truthy (VerifyRequest.tagSignature b)) eqn:Hsg; cbn [negb orb].
  2:{ left. exists b. split; [reflexivity |]. split; [| reflexivity].
      intros (_ & _ & H & _). congruence. }
  destruct (truthy (VerifyRequest.challenge b)) eqn:Hch; cbn [negb orb].
  2:{ left. exists b. split; [reflexivity |]. split; [| reflexivity].
      intros (_ & _ & _ & H & _). congruence. }
  destruct (truthy (VerifyRequest.tagUid b)) eqn:Huid; cbn [negb orb].
  2:{ left. exists b. split; [reflexivity |]. split; [| reflexivity].
      intros (_ & _ & _ & _ & H). congruence. }
  right. unfold bind.
  destruct (Buffer_from_cases node (VerifyRequest.proof b) w)
    as [(_ & p & Hpv) | (Hbad & e & ->)].
  2:{ left. exists b, e. repeat (split; [first [reflexivity | tauto] |]).
      reflexivity. }
  rewrite Hpv.
  destruct (Buffer_from_cases node (VerifyRequest.tagSignature b) w)
    as [(_ & sg & Hsgv) | (Hbad & e & ->)].
  2:{ left. exists b, e. repeat (split; [first [reflexivity | tauto] |]).
      reflexivity. }
  rewrite Hsgv.
  destruct (Buffer_from_cases node (VerifyRequest.challenge b) w)
    as [(_ & ch & Hchv) | (Hbad & e & ->)].
  2:{ left. exists b, e. repeat (split; [first [reflexivity | tauto] |]).
      reflexivity. }
  rewrite Hchv.
  destruct (iterate_cases node (VerifyRequest.publicInputs b) w)
    as [(_ & items & Hit) | (Hbad & e & ->)].
  2:{ left. exists b, e. repeat (split; [first [reflexivity | tauto] |]).
      reflexivity. }
  rewrite Hit. right.
  set (input := {| proof := p; publicInputs := items; tagSignature := sg;
                   challenge := ch;
                   tagUid := tagUid_text (VerifyRequest.tagUid b) |}).
  destruct (verifyProof_effects_aux input w) as (r & w' & Hrun).
  exists b, p, sg, ch, items, r, w'. rewrite Hrun.
  split; [reflexivity |]. split; [tauto |].
  repeat (split; [first [reflexivity | assumption] |]). reflexivity.
Qed.

(** The two answers to a request that is not a POST. *)
Lemma handler_not_post_aux (node : engine) (req : VercelRequest) (now : Z)
    (timestamp : string) (requests : gmap string Entry.t) (w : world) :
  method req ≠ Some "POST" →
  handler node req now timestamp requests w
  = (Return ({| status := 200; json := None |}, requests), w)
  ∨ handler node req now timestamp requests w
    = (Return (failure 405 timestamp "Method not allowed", requests), w).
Proof.
  intros Hnot. unfold handler.
  destruct (bool_decide (method req = Some "OPTIONS")); [left; reflexivity |].
  rewrite bool_decide_eq_false_2 by exact Hnot. right. reflexivity.
Qed.

(** The guarded part of the handler always produces an answer, with status
    200, 400 or 500. *)
Lemma handler_guarded_answer (node : engine) (req : VercelRequest)
    (timestamp : string) (w : world) :
  ∃ response w',
    try_catch (handler_body node req timestamp)
      (fun error =>
         (do console_error "Verification error:" error in
          ret (failure 500 timestamp "Internal server error"))%js) w
    = (Return response, w')
    ∧ (status response = 200 ∨ status response = 400
       ∨ status response = 500).
Proof.
  pose proof (handler_body_caught node req timestamp w) as Hcases.
  cbn zeta in Hcases.
  destruct Hcases as [(_ & e & ->) | [(b & _ & _ & ->)
                     | [(b & e & _ & _ & _ & ->)
                       | (b & p & sg & ch & items & r & w' & _ & _ & _ & _
                          & _ & _ & _ & ->)]]];
    eexists _, _; (split; [reflexivity |]); cbn; auto.
Qed.

(** X22. A request that is not a POST is answered at once, with 200 and no
    payload for OPTIONS and with 405 otherwise: it is not counted by the
    rate limiter and nothing is verified or logged. *)
Theorem handler_not_post (node : engine) (req : VercelRequest) (now : Z)
    (timestamp : string) (requests : gmap string Entry.t) (w : world) :
  method req ≠ Some "POST" →
  ∃ response,
    handler node req now timestamp requests w
    = (Return (response, requests), w)
    ∧ ((method req = Some "OPTIONS"
        ∧ response = {| status := 200; json := None |})
       ∨ (method req ≠ Some "OPTIONS"
          ∧ response = failure 405 timestamp "Method not allowed")).
Proof.
  intros Hnot. unfold handler.
  destruct (bool_decide_reflect (method req = Some "OPTIONS")) as [Hopt|Hopt].
  - eexists. split; [reflexivity |]. left. auto.
  - rewrite bool_decide_eq_false_2 by exact Hnot. cbn [negb].
    eexists. split; [reflexivity |]. right. auto.
Qed.

(** X23. A POST is answered with 429 exactly when the client's record is
    live ([now <= resetAt]) with 100 requests counted; the request body is
    then not even looked at: nothing is verified or logged, and the rate
    limiter's map changes by the clean-up only. *)
Theorem handler_too_many_requests (node : engine) (req : VercelRequest)
    (now : Z) (timestamp : string) (requests : gmap string Entry.t)
    (w : world) :
  method req = Some "POST" →
  ∃ response requests' w',
    handler node req now timestamp requests w
    = (Return (response, requests'), w')
    ∧ (status response = 429 ↔
       ∃ record,
         requests !! getClientId (headers req) = Some record
         ∧ now ≤ Entry.resetAt record
         ∧ 100 ≤ Entry.count record)
    ∧ (status response = 429 →
       response = failure 429 timestamp
                    "Too many requests. Please try again later."
       ∧ requests' = cleanup now requests
       ∧ w' = w).
Proof.
  intros Hpost. rewrite (handler_post _ _ _ _ _ _ Hpost). cbn zeta.
  destruct (handler_guarded_answer node req timestamp w)
    as (response & w' & Hguard & Hstatus).
  destruct (rateLimit_cases (getClientId (headers req)) now DEFAULT_CONFIG
              requests)
    as [[Hfresh Heq] | [(r & Hr & Hlive & Hfull & Heq)
                       | (r & Hr & Hlive & Hroom & Heq)]];
    rewrite Heq; cbn [fst snd success].
  - rewrite Hguard. eexists _, _, _. split; [reflexivity |].
    split; [| intros H429; rewrite H429 in Hstatus; lia].
    split; [intros H429; rewrite H429 in Hstatus; lia |].
    intros (record & Hrec & Hl & _). specialize (Hfresh _ Hrec). lia.
  - eexists _, _, _. split; [reflexivity |]. cbn [status failure].
    split; [| auto]. split; [| reflexivity].
    intros _. exists r. cbn in Hfull. auto.
  - rewrite Hguard. cbn in Hroom. eexists _, _, _. split; [reflexivity |].
    split; [| intros H429; rewrite H429 in Hstatus; lia].
    split; [intros H429; rewrite H429 in Hstatus; lia |].
    intros (record & Hrec & _ & Hc). rewrite Hr in Hrec.
    injection Hrec as <-. lia.
Qed.

(** X24. Validation comes after admission: an admitted POST whose body
    lacks one of the five fields (the field is missing, or is [null],
    [false], [0] or the empty string) is answered with 400, nothing is
    verified or logged, and the request has been counted by the rate
    limiter all the same. *)
Theorem handler_missing_fields (node : engine) (req : VercelRequest)
    (now : Z) (timestamp : string) (requests : gmap string Entry.t)
    (w : world) (b : VerifyRequest.t) :
  method req = Some "POST" →
  success (fst (rateLimit (getClientId (headers req)) now DEFAULT_CONFIG
                  requests)) = true →
  body req = Some b →
  falsy (VerifyRequest.proof b)
  ∨ falsy (VerifyRequest.publicInputs b)
  ∨ falsy (VerifyRequest.tagSignature b)
  ∨ falsy (VerifyRequest.challenge b)
  ∨ falsy (VerifyRequest.tagUid b) →
  handler node req now timestamp requests w
  = (Return (failure 400 timestamp "Missing required fields",
             snd (rateLimit (getClientId (headers req)) now DEFAULT_CONFIG
                    requests)), w)
  ∧ ∃ record,
      snd (rateLimit (getClientId (headers req)) now DEFAULT_CONFIG requests)
        !! getClientId (headers req) = Some record
      ∧ (∀ old, requests !! getClientId (headers req) = Some old →
                now ≤ Entry.resetAt old →
                Entry.count record = Entry.count old + 1)
      ∧ ((∀ old, requests !! getClientId (headers req) = Some old →
                 Entry.resetAt old < now) →
         Entry.count record = 1).
Proof.
  intros Hpost Hadmit Hbody Hmissing.
  assert (¬ all_present b) as Hnot.
  { intros (Hp & Hpi & Hsg & Hch & Huid).
    destruct Hmissing as [H | [H | [H | [H | H]]]];
      apply truthy_false_iff in H; congruence. }
  split.
  - rewrite (handler_post _ _ _ _ _ _ Hpost). cbn zeta. rewrite Hadmit.
    pose proof (handler_body_caught node req timestamp w) as Hcases.
    cbn zeta in Hcases.
    destruct Hcases as [(Hnone & _) | [(b' & _ & _ & ->)
                       | [(b' & e & Hb & Hall & _)
                         | (b' & p & sg & ch & items & r & w' & Hb & Hall
                            & _)]]].
    + congruence.
    + reflexivity.
    + exfalso. rewrite Hbody in Hb. injection Hb as <-. exact (Hnot Hall).
    + exfalso. rewrite Hbody in Hb. injection Hb as <-. exact (Hnot Hall).
  - destruct (rateLimit_cases (getClientId (headers req)) now DEFAULT_CONFIG
                requests)
      as [[Hfresh Heq] | [(r & Hr & Hlive & Hfull & Heq)
                         | (r & Hr & Hlive & Hroom & Heq)]];
      rewrite Heq in Hadmit |- *; cbn [fst snd success] in *;
      try discriminate.
    + eexists. split; [apply lookup_insert_eq |]. cbn.
      split; [| reflexivity].
      intros old Hold Hl. specialize (Hfresh _ Hold). lia.
    + eexists. split; [apply lookup_insert_eq |]. cbn. split.
      * intros old Hold _. rewrite Hr in Hold.
        injection Hold as <-. reflexivity.
      * intros Hexp. specialize (Hexp _ Hr). lia.
Qed.

(** X25. An admitted POST whose [proof], [tagSignature], [challenge] and
    [tagUid] are non-empty strings and whose [publicInputs] is an array is
    answered with 200 and [success = true] whatever the verdict: the
    payload carries the four booleans of [verifyProof] run on the decoded
    buffers, so a product that is not authentic is an ordinary answer, not
    an error. *)
Theorem handler_verifies (node : engine) (req : VercelRequest) (now : Z)
    (timestamp : string) (requests : gmap string Entry.t) (w : world)
    (p sg ch uid : string) (pi : list jsval) :
  method req = Some "POST" →
  success (fst (rateLimit (getClientId (headers req)) now DEFAULT_CONFIG
                  requests)) = true →
  body req = Some (VerifyRequest.mk (VText p) (VArray pi) (VText sg)
                     (VText ch) (VText uid)) →
  p ≠ "" → sg ≠ "" → ch ≠ "" → uid ≠ "" →
  ∃ r w',
    verifyProof {| proof := Buffer_from_base64 node p;
                   publicInputs := pi;
                   tagSignature := Buffer_from_base64 node sg;
                   challenge := Buffer_from_base64 node ch;
                   tagUid := uid |} w = (Return r, w')
    ∧ handler node req now timestamp requests w
      = (Return
           ({| status := 200;
               json :=
                 Some {| VerifyResponse.success := true;
                         VerifyResponse.authentic := authentic r;
                         VerifyResponse.timestamp := timestamp;
                         VerifyResponse.error := None;
                         VerifyResponse.details :=
                           Some {| VerifyResponse.proofValid := proofValid r;
                                   VerifyResponse.tagAuthValid :=
                                     tagAuthValid r;
                                   VerifyResponse.rootValid := rootValid r
                                |} |} |},
            snd (rateLimit (getClientId (headers req)) now DEFAULT_CONFIG
                   requests)), w').
Proof.
  intros Hpost Hadmit Hbody Hp Hsg Hch Huid.
  rewrite (handler_post _ _ _ _ _ _ Hpost). cbn zeta. rewrite Hadmit.
  assert (∀ s, s ≠ "" → truthy (VText s) = true) as Htext.
  { intros s Hs. cbn. destruct (String.eqb_spec s ""); [contradiction |].
    reflexivity. }
  pose proof (handler_body_caught node req timestamp w) as Hcases.
  cbn zeta in Hcases.
  destruct Hcases as [(Hnone & _) | [(b' & Hb & Hmissing & _)
                     | [(b' & e & Hb & _ & Hbad & _)
                       | (b' & p' & sg' & ch' & items & r & w' & Hb & _
                          & Hpv & Hsgv & Hchv & Hit & Hrun & ->)]]].
  - congruence.
  - exfalso. apply Hmissing. rewrite Hbody in Hb. injection Hb as <-.
    unfold all_present. cbn [VerifyRequest.proof VerifyRequest.publicInputs
      VerifyRequest.tagSignature VerifyRequest.challenge
      VerifyRequest.tagUid].
    repeat split; first [apply Htext; assumption | reflexivity].
  - exfalso. rewrite Hbody in Hb. injection Hb as <-.
    unfold buffer_like, iterable in Hbad. cbn in Hbad.
    destruct Hbad as [H | [H | [H | H]]]; apply H; eauto.
  - rewrite Hbody in Hb. injection Hb as <-. cbn in Hpv, Hsgv, Hchv, Hit, Hrun.
    unfold ret in Hpv, Hsgv, Hchv, Hit.
    injection Hpv as <-. injection Hsgv as <-. injection Hchv as <-.
    injection Hit as <-.
    exists r, w'. split; [exact Hrun | reflexivity].
Qed.

(** X26. An admitted POST without a body is answered with 500: reading a
    field of the missing body throws, and the [catch] clause logs the
    exception. *)
Theorem handler_no_body (node : engine) (req : VercelRequest) (now : Z)
    (timestamp : string) (requests : gmap string Entry.t) (w : world) :
  method req = Some "POST" →
  success (fst (rateLimit (getClientId (headers req)) now DEFAULT_CONFIG
                  requests)) = true →
  body req = None →
  ∃ e,
    handler node req now timestamp requests w
    = (Return (failure 500 timestamp "Internal server error",
               snd (rateLimit (getClientId (headers req)) now DEFAULT_CONFIG
                      requests)),
       {| VALID_ROOTS := VALID_ROOTS w;
          console := (console w
                        ++ [ConsoleError "Verification error:" e])%list |}).
Proof.
  intros Hpost Hadmit Hbody.
  rewrite (handler_post _ _ _ _ _ _ Hpost). cbn zeta. rewrite Hadmit.
  pose proof (handler_body_caught node req timestamp w) as Hcases.
  cbn zeta in Hcases.
  destruct Hcases as [(_ & e & ->) | [(b' & Hb & _)
                     | [(b' & e & Hb & _)
                       | (b' & p' & sg' & ch' & items & r & w' & Hb & _)]]];
    try congruence.
  exists e. reflexivity.
Qed.

(** X28. The handler tests its fields for truthiness only, so a body can
    pass the test and still make the [try] block throw: when all five
    fields are truthy but [proof], [tagSignature] or [challenge] is a value
    [Buffer.from] rejects ([true], a number, an object that is no array),
    or [publicInputs] is not iterable ([true], a number, an object), an
    admitted POST is answered with 500 after one console line; nothing is
    verified. *)
Theorem handler_ill_typed_fields (node : engine) (req : VercelRequest)
    (now : Z) (timestamp : string) (requests : gmap string Entry.t)
    (w : world) (b : VerifyRequest.t) :
  method req = Some "POST" →
  success (fst (rateLimit (getClientId (headers req)) now DEFAULT_CONFIG
                  requests)) = true →
  body req = Some b →
  all_present b →
  ¬ buffer_like (VerifyRequest.proof b)
  ∨ ¬ buffer_like (VerifyRequest.tagSignature b)
  ∨ ¬ buffer_like (VerifyRequest.challenge b)
  ∨ ¬ iterable (VerifyRequest.publicInputs b) →
  ∃ e,
    handler node req now timestamp requests w
    = (Return (failure 500 timestamp "Internal server error",
               snd (rateLimit (getClientId (headers req)) now DEFAULT_CONFIG
                      requests)),
       {| VALID_ROOTS := VALID_ROOTS w;
          console := (console w
                        ++ [ConsoleError "Verification error:" e])%list |}).
Proof.
  intros Hpost Hadmit Hbody Hall Hbad.
  rewrite (handler_post _ _ _ _ _ _ Hpost). cbn zeta. rewrite Hadmit.
  pose proof (handler_body_caught node req timestamp w) as Hcases.
  cbn zeta in Hcases.
  destruct Hcases as [(Hnone & _) | [(b' & Hb & Hmissing & _)
                     | [(b' & e & Hb & _ & _ & ->)
                       | (b' & p' & sg' & ch' & items & r & w' & Hb & _
                          & Hpv & Hsgv & Hchv & Hit & _)]]].
  - congruence.
  - exfalso. rewrite Hbody in Hb. injection Hb as <-. exact (Hmissing Hall).
  - exists e. reflexivity.
  - exfalso. rewrite Hbody in Hb. injection Hb as <-.
    destruct Hbad as [H | [H | [H | H]]].
    + destruct (Buffer_from_cases node (VerifyRequest.proof b) w)
        as [(Hok & _) | (_ & e & He)]; [contradiction | congruence].
    + destruct (Buffer_from_cases node (VerifyRequest.tagSignature b) w)
        as [(Hok & _) | (_ & e & He)]; [contradiction | congruence].
    + destruct (Buffer_from_cases node (VerifyRequest.challenge b) w)
        as [(Hok & _) | (_ & e & He)]; [contradiction | congruence].
    + destruct (iterate_cases node (VerifyRequest.publicInputs b) w)
        as [(Hok & _) | (_ & e & He)]; [contradiction | congruence].
Qed.

(** X27. The handler always answers: it never throws, never changes the
    trusted roots, and its status is one of 200, 400, 405, 429 and 500. A
    payload has [success = true] exactly with status 200, and it says
    [authentic] only with status 200 for a POST whose first public input is
    one of the trusted roots. *)
Theorem handler_always_answers (node : engine) (req : VercelRequest)
    (now : Z) (timestamp : string) (requests : gmap string Entry.t)
    (w : world) :
  ∃ response requests' w',
    handler node req now timestamp requests w
    = (Return (response, requests'), w')
    ∧ VALID_ROOTS w' = VALID_ROOTS w
    ∧ status response ∈ [200; 400; 405; 429; 500]
    ∧ ∀ payload,
        json response = Some payload →
        (VerifyResponse.success payload = true ↔ status response = 200)
        ∧ (VerifyResponse.authentic payload = true →
           status response = 200
           ∧ method req = Some "POST"
           ∧ ∃ b pi root,
               body req = Some b
               ∧ iterate node (VerifyRequest.publicInputs b) w
                 = (Return pi, w)
               ∧ array_get pi 0 = JStr root
               ∧ root ∈ VALID_ROOTS w).
Proof.
  destruct (decide (method req = Some "POST")) as [Hpost|Hnot].
  - rewrite (handler_post _ _ _ _ _ _ Hpost). cbn zeta.
    destruct (success (fst (rateLimit (getClientId (headers req)) now
                              DEFAULT_CONFIG requests))).
    + pose proof (handler_body_caught node req timestamp w) as Hcases.
      cbn zeta in Hcases.
      destruct Hcases as [(_ & e & ->) | [(b' & Hb & _ & ->)
                         | [(b' & e & _ & _ & _ & ->)
                           | (b' & p & sg & ch & items & r & w' & Hb & _
                              & _ & _ & _ & Hit & Hrun & ->)]]].
      * eexists _, _, _. split; [reflexivity |]. split; [reflexivity |].
        split; [apply list_elem_of_In; cbn; tauto |].
        intros payload [= <-]. cbn. split; [| discriminate].
        split; discriminate.
      * eexists _, _, _. split; [reflexivity |]. split; [reflexivity |].
        split; [apply list_elem_of_In; cbn; tauto |].
        intros payload [= <-]. cbn. split; [| discriminate].
        split; discriminate.
      * eexists _, _, _. split; [reflexivity |]. split; [reflexivity |].
        split; [apply list_elem_of_In; cbn; tauto |].
        intros payload [= <-]. cbn. split; [| discriminate].
        split; discriminate.
      * destruct (verifyProof_authentic_root _ _ _ _ Hrun) as [Hroots Hauth].
        eexists _, _, _. split; [reflexivity |]. split; [exact Hroots |].
        split; [apply list_elem_of_In; cbn; tauto |].
        intros payload [= <-]. cbn. split; [tauto |].
        intros Ha. split; [reflexivity |]. split; [exact Hpost |].
        destruct (Hauth Ha) as (root & Hroot & Hin).
        exists b', items, root. auto.
    + eexists _, _, _. split; [reflexivity |]. split; [reflexivity |].
      split; [apply list_elem_of_In; cbn; tauto |].
      intros payload [= <-]. cbn. split; [| discriminate].
      split; discriminate.
  - destruct (handler_not_post_aux node req now timestamp requests w Hnot)
      as [-> | ->];
      eexists _, _, _; (split; [reflexivity |]); (split; [reflexivity |]);
      (split; [apply list_elem_of_In; cbn; tauto |]).
    + intros payload. discriminate.
    + intros payload [= <-]. cbn. split; [| discriminate].
      split; discriminate.
Qed.

(** * The further properties at sample inputs *)

(** A request with no public inputs at all. *)
Lemma verifyProof_root_not_string_witness :
  ∃ (tv : bool) (w' : world),
    verifyProof {| proof := list_byte_of_string "Hello World";
                   publicInputs := [];
                   tagSignature := list_byte_of_string "signaturedata123";
                   challenge := list_byte_of_string "challengedata";
                   tagUid := "E004012345678910" |} initial_world =
      (Return {| authentic := false; proofValid := false;
                 tagAuthValid := tv; rootValid := false |}, w').
Proof.
  apply (verifyProof_root_not_string
           {| proof := list_byte_of_string "Hello World";
              publicInputs := [];
              tagSignature := list_byte_of_string "signaturedata123";
              challenge := list_byte_of_string "challengedata";
              tagUid := "E004012345678910" |} initial_world).
  intros (s & Hs). discriminate Hs.
Defined.

(** A third public input that is not even a string. *)
Lemma verifyProof_ignores_extra_inputs_witness :
  verifyProof {| proof := [x01%byte];
                 publicInputs := [JStr "0x12"; JStr "0x34"; JNum 5];
                 tagSignature := [];
                 challenge := [x02%byte];
                 tagUid := "E0" |} initial_world =
  verifyProof {| proof := [x01%byte];
                 publicInputs := [JStr "0x12"; JStr "0x34"];
                 tagSignature := [];
                 challenge := [x02%byte];
                 tagUid := "E0" |} initial_world.
Proof.
  apply (verifyProof_ignores_extra_inputs
           {| proof := [x01%byte];
              publicInputs := [JStr "0x12"; JStr "0x34"; JNum 5];
              tagSignature := [];
              challenge := [x02%byte];
              tagUid := "E0" |} (JStr "0x12") (JStr "0x34") [JNum 5]
           initial_world).
  reflexivity.
Defined.

(** The example request, with no trusted root and with the initial one. *)
Lemma verifyProof_roots_monotone_witness :
  let r1 := {| authentic := false; proofValid := true;
               tagAuthValid := true; rootValid := false |} in
  let r2 := {| authentic := true; proofValid := true;
               tagAuthValid := true; rootValid := true |} in
  proofValid r1 = proofValid r2
  ∧ tagAuthValid r1 = tagAuthValid r2
  ∧ (rootValid r1 = true → rootValid r2 = true)
  ∧ (authentic r1 = true → authentic r2 = true).
Proof.
  apply (verifyProof_roots_monotone sample_input
           {| VALID_ROOTS := ∅; console := [] |} initial_world).
  - apply empty_subseteq.
  - vm_compute. reflexivity.
  - vm_compute. reflexivity.
Defined.

(** The client in the middle of its window, while another one calls. *)
Lemma rateLimit_other_clients_witness :
  snd (rateLimit "203.0.113.7" 6000 DEFAULT_CONFIG sample_requests)
    !! "198.51.100.2" =
    match sample_requests !! "198.51.100.2" with
    | Some record =>
        if bool_decide (Entry.resetAt record < 6000) then None
        else Some record
    | None => None
    end.
Proof.
  apply (rateLimit_other_clients "203.0.113.7" "198.51.100.2" 6000
           DEFAULT_CONFIG sample_requests).
  discriminate.
Defined.

Lemma rateLimit_leaves_no_expired_witness :
  6000 ≤ Entry.resetAt (Entry.mk 3 9000)
  ∧ ("198.51.100.2" = "203.0.113.7"
     ∨ sample_requests !! "198.51.100.2" = Some (Entry.mk 3 9000)).
Proof.
  apply (rateLimit_leaves_no_expired "203.0.113.7" 6000 DEFAULT_CONFIG
           sample_requests).
  - cbn. lia.
  - vm_compute. reflexivity.
Defined.

Lemma rateLimit_count_bounds_witness :
  1 ≤ Entry.count (Entry.mk 4 9000) ≤ maxRequests DEFAULT_CONFIG.
Proof.
  apply (rateLimit_count_bounds "198.51.100.2" 6000 DEFAULT_CONFIG
           sample_requests ltac:(cbn; lia)) with (key := "198.51.100.2").
  - intros key record Hget. unfold sample_requests in Hget.
    repeat (apply lookup_insert_Some in Hget
              as [[_ <-] | [_ Hget]]; [cbn; lia |]).
    apply lookup_singleton_Some in Hget as [_ <-]. cbn. lia.
  - vm_compute. reflexivity.
Defined.

(** The client at the limit, inside its window. *)
Lemma rateLimit_rejected_witness :
  ∃ record,
    sample_requests !! "203.0.113.7" = Some record
    ∧ 4000 ≤ Entry.resetAt record
    ∧ maxRequests DEFAULT_CONFIG ≤ Entry.count record
    ∧ rateLimit "203.0.113.7" 4000 DEFAULT_CONFIG sample_requests =
        ({| success := false; remaining := 0;
            resetAt := Entry.resetAt record |},
         cleanup 4000 sample_requests)
    ∧ snd (rateLimit "203.0.113.7" 4000 DEFAULT_CONFIG sample_requests)
        !! "203.0.113.7" = Some record.
Proof.
  apply (rateLimit_rejected "203.0.113.7" 4000 DEFAULT_CONFIG
           sample_requests).
  vm_compute. reflexivity.
Defined.

(** Five requests in one window with a limit of three. *)
Lemma rateLimit_allowed_per_window_witness :
  Z.of_nat (length (filter (fun r => success r = true)
                      (fst (rateLimit_run "203.0.113.7" sample_config
                              (0 :: [10; 20; 30; 40]) ∅))))
  = Z.min (Z.of_nat (length [10; 20; 30; 40]) + 1) (maxRequests sample_config).
Proof.
  apply (rateLimit_allowed_per_window "203.0.113.7" sample_config ∅ 0
           [10; 20; 30; 40]).
  - intros record Hget. rewrite lookup_empty in Hget. discriminate Hget.
  - cbn. lia.
  - repeat (constructor; [cbn; lia |]). constructor.
Defined.

(** A limit of zero. *)
Lemma rateLimit_nonpositive_limit_witness :
  let config := {| maxRequests := 0; windowMs := 1000 |} in
  let first := rateLimit "203.0.113.7" 0 config ∅ in
  success (fst first) = true
  ∧ remaining (fst first) < 0
  ∧ success (fst (rateLimit "203.0.113.7" 500 config (snd first))) = false.
Proof.
  apply (rateLimit_nonpositive_limit "203.0.113.7" 0
           {| maxRequests := 0; windowMs := 1000 |} ∅ 500).
  - cbn. lia.
  - apply lookup_empty.
  - cbn. lia.
Defined.

(** A retry at the very millisecond of [resetAt]. *)
Lemma rateLimit_retry_before_reset_witness :
  success (fst (rateLimit "203.0.113.7" 5000 DEFAULT_CONFIG
                  (snd (rateLimit "203.0.113.7" 4000 DEFAULT_CONFIG
                          sample_requests)))) = false.
Proof.
  apply (rateLimit_retry_before_reset "203.0.113.7" 4000 DEFAULT_CONFIG
           sample_requests 5000).
  - vm_compute. reflexivity.
  - vm_compute. discriminate.
Defined.

Lemma rateLimit_commute_witness :
  let a1 := rateLimit "203.0.113.7" 6000 DEFAULT_CONFIG sample_requests in
  let a2 := rateLimit "198.51.100.2" 6000 DEFAULT_CONFIG (snd a1) in
  let b2 := rateLimit "198.51.100.2" 6000 DEFAULT_CONFIG sample_requests in
  let b1 := rateLimit "203.0.113.7" 6000 DEFAULT_CONFIG (snd b2) in
  fst a1 = fst b1 ∧ fst a2 = fst b2 ∧ snd a2 = snd b1.
Proof.
  apply (rateLimit_commute "203.0.113.7" "198.51.100.2" 6000 DEFAULT_CONFIG
           sample_requests).
  - discriminate.
  - cbn. lia.
Defined.

Lemma getClientId_forwarded_clean_witness :
  let id := getClientId sample_headers in
  ¬ In ","%char (list_ascii_of_string id)
  ∧ (∀ c rest, id = String c rest → is_whitespace c = false)
  ∧ (∀ pre c, id = String.append pre (String c EmptyString) →
              is_whitespace c = false).
Proof.
  apply (getClientId_forwarded_clean sample_headers
           " 203.0.113.7 , 10.0.0.1").
  reflexivity.
Defined.

Lemma getClientId_first_item_witness :
  getClientId sample_headers = trim " 203.0.113.7 "
  ∧ getClientId {[ "x-forwarded-for" := HeaderString " 203.0.113.7 " ]}
    = trim " 203.0.113.7 ".
Proof.
  apply (getClientId_first_item sample_headers " 203.0.113.7 " " 10.0.0.1").
  - cbn. intros H.
    repeat (destruct H as [H | H]; [discriminate H |]). exact H.
  - reflexivity.
Defined.

(** A forwarded header that begins with a comma. *)
Lemma getClientId_blank_forwarded_witness :
  getClientId {[ "x-forwarded-for" := HeaderString " ,10.0.0.1";
                 "x-real-ip" := HeaderString "10.0.0.9" ]} = "".
Proof.
  apply (getClientId_blank_forwarded _ " " "10.0.0.1").
  - repeat constructor.
  - right. reflexivity.
Defined.

Lemma retry_at_announced_reset_witness :
  ∃ seconds,
    addRateLimitHeaders ∅
      (fst (rateLimit "203.0.113.7" 4000 DEFAULT_CONFIG sample_requests))
      !! "X-RateLimit-Reset" = Some (number_to_string seconds)
    ∧ success (fst (rateLimit "203.0.113.7" (1000 * seconds) DEFAULT_CONFIG
                      (snd (rateLimit "203.0.113.7" 4000 DEFAULT_CONFIG
                              sample_requests))))
      = false.
Proof.
  apply (retry_at_announced_reset "203.0.113.7" 4000 DEFAULT_CONFIG
           sample_requests ∅).
  vm_compute. reflexivity.
Defined.

(** A GET request. *)
Lemma handler_not_post_witness :
  let req := {| method := Some "GET"; headers := sample_headers;
                body := None |} in
  ∃ response,
    handler sample_engine req 4000 "2025-01-15T10:30:00.000Z" sample_requests
      initial_world
    = (Return (response, sample_requests), initial_world)
    ∧ ((method req = Some "OPTIONS"
        ∧ response = {| status := 200; json := None |})
       ∨ (method req ≠ Some "OPTIONS"
          ∧ response = failure 405 "2025-01-15T10:30:00.000Z"
                         "Method not allowed")).
Proof.
  apply (handler_not_post sample_engine
           {| method := Some "GET"; headers := sample_headers;
              body := None |} 4000 "2025-01-15T10:30:00.000Z"
           sample_requests initial_world).
  discriminate.
Defined.

(** The example request from the client that is at its limit. *)
Lemma handler_too_many_requests_witness :
  ∃ response requests' w',
    handler sample_engine sample_post 4000 "2025-01-15T10:30:00.000Z"
      sample_requests initial_world
    = (Return (response, requests'), w')
    ∧ (status response = 429 ↔
       ∃ record,
         sample_requests !! getClientId (headers sample_post) = Some record
         ∧ 4000 ≤ Entry.resetAt record
         ∧ 100 ≤ Entry.count record)
    ∧ (status response = 429 →
       response = failure 429 "2025-01-15T10:30:00.000Z"
                    "Too many requests. Please try again later."
       ∧ requests' = cleanup 4000 sample_requests
       ∧ w' = initial_world).
Proof.
  apply (handler_too_many_requests sample_engine sample_post 4000
           "2025-01-15T10:30:00.000Z" sample_requests initial_world).
  reflexivity.
Defined.

(** The example request without its [tagUid], from a new client. *)
Lemma handler_missing_fields_witness :
  let b := VerifyRequest.mk (VText "SGVsbG8gV29ybGQ=") (VArray [])
             (VText "c2lnbmF0dXJlZGF0YQ==") (VText "Y2hhbGxlbmdlZGF0YQ==")
             VMissing in
  let req := {| method := Some "POST"; headers := sample_headers;
                body := Some b |} in
  handler sample_engine req 4000 "2025-01-15T10:30:00.000Z" ∅ initial_world
  = (Return (failure 400 "2025-01-15T10:30:00.000Z" "Missing required fields",
             snd (rateLimit (getClientId (headers req)) 4000 DEFAULT_CONFIG
                    ∅)), initial_world)
  ∧ ∃ record,
      snd (rateLimit (getClientId (headers req)) 4000 DEFAULT_CONFIG ∅)
        !! getClientId (headers req) = Some record
      ∧ (∀ old, (∅ : gmap string Entry.t) !! getClientId (headers req)
                = Some old →
                4000 ≤ Entry.resetAt old →
                Entry.count record = Entry.count old + 1)
      ∧ ((∀ old, (∅ : gmap string Entry.t) !! getClientId (headers req)
                 = Some old →
                 Entry.resetAt old < 4000) →
         Entry.count record = 1).
Proof.
  apply (handler_missing_fields sample_engine
           {| method := Some "POST"; headers := sample_headers;
              body := Some (VerifyRequest.mk (VText "SGVsbG8gV29ybGQ=")
                              (VArray []) (VText "c2lnbmF0dXJlZGF0YQ==")
                              (VText "Y2hhbGxlbmdlZGF0YQ==") VMissing) |}
           4000 "2025-01-15T10:30:00.000Z" ∅ initial_world
           (VerifyRequest.mk (VText "SGVsbG8gV29ybGQ=") (VArray [])
              (VText "c2lnbmF0dXJlZGF0YQ==") (VText "Y2hhbGxlbmdlZGF0YQ==")
              VMissing)).
  - reflexivity.
  - vm_compute. reflexivity.
  - reflexivity.
  - right. right. right. right. left. reflexivity.
Defined.

(** The example request from a new client. *)
Lemma handler_verifies_witness :
  ∃ r w',
    verifyProof
      {| proof := Buffer_from_base64 sample_engine "SGVsbG8gV29ybGQ=";
         publicInputs :=
           [JStr "0x1234567890abcdef1234567890abcdef1234567890abcdef1234567890abcdef";
            JStr "0xabcdef1234567890abcdef1234567890abcdef1234567890abcdef1234567890"];
         tagSignature :=
           Buffer_from_base64 sample_engine "c2lnbmF0dXJlZGF0YQ==";
         challenge := Buffer_from_base64 sample_engine "Y2hhbGxlbmdlZGF0YQ==";
         tagUid := "E004012345678910" |} initial_world = (Return r, w')
    ∧ handler sample_engine sample_post 4000 "2025-01-15T10:30:00.000Z" ∅
        initial_world
      = (Return
           ({| status := 200;
               json :=
                 Some {| VerifyResponse.success := true;
                         VerifyResponse.authentic := authentic r;
                         VerifyResponse.timestamp :=
                           "2025-01-15T10:30:00.000Z";
                         VerifyResponse.error := None;
                         VerifyResponse.details :=
                           Some {| VerifyResponse.proofValid := proofValid r;
                                   VerifyResponse.tagAuthValid :=
                                     tagAuthValid r;
                                   VerifyResponse.rootValid := rootValid r
                                |} |} |},
            snd (rateLimit (getClientId (headers sample_post)) 4000
                   DEFAULT_CONFIG ∅)), w').
Proof.
  apply (handler_verifies sample_engine sample_post 4000
           "2025-01-15T10:30:00.000Z" ∅ initial_world).
  - reflexivity.
  - vm_compute. reflexivity.
  - reflexivity.
  - discriminate.
  - discriminate.
  - discriminate.
  - discriminate.
Defined.

(** A POST without a body, from a new client. *)
Lemma handler_no_body_witness :
  let req := {| method := Some "POST"; headers := sample_headers;
                body := None |} in
  ∃ e,
    handler sample_engine req 4000 "2025-01-15T10:30:00.000Z" ∅ initial_world
    = (Return (failure 500 "2025-01-15T10:30:00.000Z" "Internal server error",
               snd (rateLimit (getClientId (headers req)) 4000 DEFAULT_CONFIG
                      ∅)),
       {| VALID_ROOTS := VALID_ROOTS initial_world;
          console := (console initial_world
                        ++ [ConsoleError "Verification error:" e])%list |}).
Proof.
  apply (handler_no_body sample_engine
           {| method := Some "POST"; headers := sample_headers;
              body := None |} 4000 "2025-01-15T10:30:00.000Z" ∅
           initial_world).
  - reflexivity.
  - vm_compute. reflexivity.
  - reflexivity.
Defined.

(** The example request with the number 123 for its [proof]. *)
Lemma handler_ill_typed_fields_witness :
  let b := VerifyRequest.mk (VNum 123)
             (VArray [JStr "0x12"; JStr "0x34"])
             (VText "c2lnbmF0dXJlZGF0YQ==") (VText "Y2hhbGxlbmdlZGF0YQ==")
             (VText "E004012345678910") in
  let req := {| method := Some "POST"; headers := sample_headers;
                body := Some b |} in
  ∃ e,
    handler sample_engine req 4000 "2025-01-15T10:30:00.000Z" ∅ initial_world
    = (Return (failure 500 "2025-01-15T10:30:00.000Z" "Internal server error",
               snd (rateLimit (getClientId (headers req)) 4000 DEFAULT_CONFIG
                      ∅)),
       {| VALID_ROOTS := VALID_ROOTS initial_world;
          console := (console initial_world
                        ++ [ConsoleError "Verification error:" e])%list |}).
Proof.
  apply (handler_ill_typed_fields sample_engine
           {| method := Some "POST"; headers := sample_headers;
              body := Some (VerifyRequest.mk (VNum 123)
                              (VArray [JStr "0x12"; JStr "0x34"])
                              (VText "c2lnbmF0dXJlZGF0YQ==")
                              (VText "Y2hhbGxlbmdlZGF0YQ==")
                              (VText "E004012345678910")) |}
           4000 "2025-01-15T10:30:00.000Z" ∅ initial_world
           (VerifyRequest.mk (VNum 123) (VArray [JStr "0x12"; JStr "0x34"])
              (VText "c2lnbmF0dXJlZGF0YQ==") (VText "Y2hhbGxlbmdlZGF0YQ==")
              (VText "E004012345678910"))).
  - reflexivity.
  - vm_compute. reflexivity.
  - reflexivity.
  - repeat split.
  - left. intros [(s & H) | [(s & H) | (s & H)]]; discriminate H.
Defined.
